(** * Data-Model FAIRness Evaluator: the validation core of [app.py]

    A shallow embedding of the three validators of [src/app.py]
    ([validate_location_format], [validate_context_format],
    [validate_json_data] with its two field checks) over the values that
    [json.load] produces, together with the properties of the
    specification that concern them.

    Python is dynamically typed: every operation the validators apply to
    their argument ([in], [len], subscription, iteration, comparison,
    attribute access) is defined for some shapes of value and raises for
    the others.  The embedding keeps that: a computation returns either a
    value or the exception it raises. *)

From Stdlib Require Import ZArith QArith Bool List String Ascii Lia Lqa.
From Stdlib Require Import DecimalString.
Import ListNotations.
Set Warnings "-register-all".
Open Scope string_scope.
Open Scope Z_scope.

(** ** Values produced by the JSON parser *)

(** A Python float, as far as the validators can observe it: they only
    compare.  A finite float is the rational it denotes; the sign of zero
    is kept because [str] shows it. *)
Inductive pyfloat : Type :=
| FFin (q : Q)
| FNegZero
| FInf
| FNegInf
| FNan.

(** What [json.load] returns: [None], [bool], [int], [float], [str],
    [list], [dict].  A [str] is a [string], one [ascii] per character (the
    characters are those of Latin-1).  A [dict] lists its items in
    insertion order, without duplicate key. *)
Inductive value : Type :=
| JNull
| JBool (b : bool)
| JInt (z : Z)
| JFloat (f : pyfloat)
| JStr (s : string)
| JList (l : list value)
| JDict (d : list (string * value)).

(** ** Exceptions *)

Inductive exn : Type :=
| TypeError
| KeyError
| IndexError
| ValueError
| AttributeError.

Inductive result (A : Type) : Type :=
| Ret (a : A)
| Raise (e : exn).
Arguments Ret {A} a.
Arguments Raise {A} e.

Definition bind {A B : Type} (m : result A) (k : A -> result B) : result B :=
  match m with
  | Ret a => k a
  | Raise e => Raise e
  end.

Notation "x <- m ;; k" := (bind m (fun x => k))
  (at level 61, m at next level, right associativity).
Notation "' pat <- m ;; k" := (bind m (fun x => match x with pat => k end))
  (at level 61, pat pattern, m at next level, right associativity).

(** A verdict is the pair [(is_valid, message)] every validator returns. *)
Definition verdict : Type := (bool * string)%type.

(** ** Numbers and their comparison *)

(** The number a value denotes in a comparison: an extended rational.
    [bool] is a subclass of [int] ([True] is 1, [False] is 0). *)
Inductive xnum : Type :=
| XFin (q : Q)
| XInf
| XNegInf
| XNan.

Definition float_num (f : pyfloat) : xnum :=
  match f with
  | FFin q => XFin q
  | FNegZero => XFin 0
  | FInf => XInf
  | FNegInf => XNegInf
  | FNan => XNan
  end.

Definition num_of (v : value) : option xnum :=
  match v with
  | JBool b => Some (XFin (if b then 1 else 0))
  | JInt z => Some (XFin (inject_Z z))
  | JFloat f => Some (float_num f)
  | _ => None
  end.

(** [x <= y] on numbers; every comparison with NaN is false. *)
Definition xle (x y : xnum) : bool :=
  match x, y with
  | XNan, _ | _, XNan => false
  | XNegInf, _ => true
  | _, XInf => true
  | XFin a, XFin b => Qle_bool a b
  | _, _ => false
  end.

(** [x == y] on numbers. *)
Definition xeq (x y : xnum) : bool :=
  match x, y with
  | XFin a, XFin b => Qeq_bool a b
  | XInf, XInf => true
  | XNegInf, XNegInf => true
  | _, _ => false
  end.

(** [n <= v] for an [int] literal [n]: [TypeError] unless [v] is a number. *)
Definition int_le_value (n : Z) (v : value) : result bool :=
  match num_of v with
  | Some x => Ret (xle (XFin (inject_Z n)) x)
  | None => Raise TypeError
  end.

(** [v <= n] for an [int] literal [n]. *)
Definition value_le_int (v : value) (n : Z) : result bool :=
  match num_of v with
  | Some x => Ret (xle x (XFin (inject_Z n)))
  | None => Raise TypeError
  end.

(** The chained comparison [lo <= v <= hi]: the second comparison is only
    evaluated when the first is true. *)
Definition chained_le (lo : Z) (v : value) (hi : Z) : result bool :=
  b <- int_le_value lo v ;;
  if b then value_le_int v hi else Ret false.

(** [lo1 <= longitude <= hi1 and lo2 <= latitude <= hi2], left to right,
    [and] evaluating its right operand only when the left one is true. *)
Definition lon_lat_in (lo1 hi1 lo2 hi2 : Z) (longitude latitude : value)
  : result bool :=
  b <- chained_le lo1 longitude hi1 ;;
  if b then chained_le lo2 latitude hi2 else Ret false.

(** ** Equality of values *)

Fixpoint lookup (k : string) (d : list (string * value)) : option value :=
  match d with
  | [] => None
  | (k', v) :: d' => if String.eqb k k' then Some v else lookup k d'
  end.

(** The parser returns one and the same object for every [NaN] of a
    document, and containers compare their elements with "identical or
    equal". *)
Definition same_nan (v w : value) : bool :=
  match v, w with
  | JFloat FNan, JFloat FNan => true
  | _, _ => false
  end.

(** [v == w].  Numbers compare by value across [bool], [int] and
    [float]; lists element-wise; dicts by their items, whatever the order;
    values of different kinds are unequal. *)
Fixpoint py_eq (v w : value) {struct v} : bool :=
  match v, w with
  | JNull, JNull => true
  | JStr s, JStr t => String.eqb s t
  | JList l, JList m =>
      (fix elems (l m : list value) {struct l} : bool :=
         match l, m with
         | [], [] => true
         | x :: l', y :: m' => (same_nan x y || py_eq x y) && elems l' m'
         | _, _ => false
         end) l m
  | JDict d, JDict e =>
      Nat.eqb (List.length d) (List.length e) &&
      (fix items (d : list (string * value)) {struct d} : bool :=
         match d with
         | [] => true
         | (k, x) :: d' =>
             match lookup k e with
             | Some y => (same_nan x y || py_eq x y) && items d'
             | None => false
             end
         end) d
  | (JBool _ | JInt _ | JFloat _), (JBool _ | JInt _ | JFloat _) =>
      match num_of v, num_of w with
      | Some x, Some y => xeq x y
      | _, _ => false
      end
  | _, _ => false
  end.

(** [v != w]. *)
Definition py_ne (v w : value) : bool := negb (py_eq v w).

(** ** The operations the validators apply to a value *)

(** [needle in haystack] for strings: the substring test. *)
Fixpoint is_prefix (p s : string) : bool :=
  match p, s with
  | EmptyString, _ => true
  | String a p', String b s' => Ascii.eqb a b && is_prefix p' s'
  | String _ _, EmptyString => false
  end.

Fixpoint substring_in (needle s : string) : bool :=
  is_prefix needle s ||
  match s with
  | EmptyString => false
  | String _ s' => substring_in needle s'
  end.

(** [key in container] for a [str] literal [key]: key membership in a
    dict, element membership in a list, substring test in a str;
    [TypeError] for the values that are not iterable. *)
Definition py_contains (key : string) (container : value) : result bool :=
  match container with
  | JDict d => Ret (match lookup key d with Some _ => true | None => false end)
  | JList l => Ret (existsb (fun x => py_eq x (JStr key)) l)
  | JStr s => Ret (substring_in key s)
  | _ => Raise TypeError
  end.

(** [container[key]] for a [str] literal [key]: only a dict accepts a
    string subscript. *)
Definition py_getitem (container : value) (key : string) : result value :=
  match container with
  | JDict d =>
      match lookup key d with
      | Some v => Ret v
      | None => Raise KeyError
      end
  | _ => Raise TypeError
  end.

(** [len(v)]. *)
Definition py_len (v : value) : result Z :=
  match v with
  | JList l => Ret (Z.of_nat (List.length l))
  | JStr s => Ret (Z.of_nat (String.length s))
  | JDict d => Ret (Z.of_nat (List.length d))
  | _ => Raise TypeError
  end.

Fixpoint chars (s : string) : list value :=
  match s with
  | EmptyString => []
  | String a s' => JStr (String a EmptyString) :: chars s'
  end.

(** The elements [for x in v] goes through: the elements of a list, the
    characters of a str, the keys of a dict. *)
Definition py_iter (v : value) : result (list value) :=
  match v with
  | JList l => Ret l
  | JStr s => Ret (chars s)
  | JDict d => Ret (map (fun kv => JStr (fst kv)) d)
  | _ => Raise TypeError
  end.

(** [a, b = v]. *)
Definition unpack2 (v : value) : result (value * value) :=
  l <- py_iter v ;;
  match l with
  | [a; b] => Ret (a, b)
  | _ => Raise ValueError
  end.

(** [v[0]] and [v[-1]]: a JSON dict has string keys only, so an integer
    subscript is a missing key. *)
Definition seq_first (l : list value) : result value :=
  match l with
  | x :: _ => Ret x
  | [] => Raise IndexError
  end.

Fixpoint seq_last (l : list value) : result value :=
  match l with
  | [] => Raise IndexError
  | [x] => Ret x
  | _ :: l' => seq_last l'
  end.

Definition py_first (v : value) : result value :=
  match v with
  | JList l => seq_first l
  | JStr s => seq_first (chars s)
  | JDict _ => Raise KeyError
  | _ => Raise TypeError
  end.

Definition py_last (v : value) : result value :=
  match v with
  | JList l => seq_last l
  | JStr s => seq_last (chars s)
  | JDict _ => Raise KeyError
  | _ => Raise TypeError
  end.

(** ** The validators *)

Section Validators.

(** Two renderings of the interpreter that the source relies on and does
    not define: [repr] of a float, and the display of the set literal
    [{"Point", "Polygon", "LineString"}], whose order of elements is the
    set's iteration order. *)
Variable float_repr : pyfloat -> string.
Variable allowed_types_repr : string.

(** [str(v)] inside an f-string, for the values that can reach it. *)
Definition py_str (v : value) : string :=
  match v with
  | JNull => "None"
  | JBool true => "True"
  | JBool false => "False"
  | JInt z => NilZero.string_of_int (Z.to_int z)
  | JFloat f => float_repr f
  | JStr s => s
  | JList _ | JDict _ => ""
  end.

(** [location_type in allowed_types]: membership in a set hashes the
    value, and a list or a dict is not hashable. *)
Definition in_allowed_types (location_type : value) : result bool :=
  match location_type with
  | JList _ | JDict _ => Raise TypeError
  | JStr s => Ret (String.eqb s "Point" || String.eqb s "Polygon"
                   || String.eqb s "LineString")
  | _ => Ret false
  end.

Definition range_message_linestring : string :=
  "Invalid point in LineString. Longitude must be in [-180, 180] and latitude in [-90, 90].".
Definition range_message_polygon : string :=
  "Invalid point in Polygon. Longitude must be in [-180, 180] and latitude in [-90, 90].".
Definition range_message_point : string :=
  "Invalid coordinates for 'Point'. Longitude must be in [-180, 180] and latitude in [-90, 90].".

(** A loop whose body can return from the function yields [Some v] for
    the verdict it returned and [None] when it ran to its end. *)

(** Lines 42-47: [for point in coordinates] of a LineString. *)
Fixpoint linestring_points (points : list value) : result (option verdict) :=
  match points with
  | [] => Ret None
  | point :: rest =>
      n <- py_len point ;;
      if negb (n =? 2) then
        Ret (Some (false, "Each point in LineString must have exactly two elements (longitude, latitude)."))
      else
        '(longitude, latitude) <- unpack2 point ;;
        ok <- lon_lat_in (-180) 180 (-90) 90 longitude latitude ;;
        if negb ok then Ret (Some (false, range_message_linestring))
        else linestring_points rest
  end.

(** Lines 58-63: [for point in ring] of a Polygon. *)
Fixpoint polygon_points (points : list value) : result (option verdict) :=
  match points with
  | [] => Ret None
  | point :: rest =>
      n <- py_len point ;;
      if negb (n =? 2) then
        Ret (Some (false, "Each point in a Polygon ring must have exactly two elements (longitude, latitude)."))
      else
        '(longitude, latitude) <- unpack2 point ;;
        ok <- lon_lat_in (-180) 180 (-180) 180 longitude latitude ;;
        if negb ok then Ret (Some (false, range_message_polygon))
        else polygon_points rest
  end.

(** Lines 53-63: [for ring in coordinates] of a Polygon. *)
Fixpoint polygon_rings (rings : list value) : result (option verdict) :=
  match rings with
  | [] => Ret None
  | ring :: rest =>
      n <- py_len ring ;;
      if n <? 4 then
        Ret (Some (false, "Each linear ring in Polygon must have at least four points (coordinate pairs)."))
      else
        first <- py_first ring ;;
        last <- py_last ring ;;
        if py_ne first last then
          Ret (Some (false, "The first and last point in each linear ring must be the same to close the Polygon."))
        else
          points <- py_iter ring ;;
          r <- polygon_points points ;;
          match r with
          | Some v => Ret (Some v)
          | None => polygon_rings rest
          end
  end.

Definition location_valid : verdict := (true, "Location format is valid.").

(** What follows a loop: the verdict it returned, or line 65. *)
Definition or_location_valid (r : option verdict) : result verdict :=
  match r with
  | Some v => Ret v
  | None => Ret location_valid
  end.

(** [validate_location_format], lines 12-65. *)
Definition validate_location_format (location : value) : result verdict :=
  missing <-
    (has_type <- py_contains "type" location ;;
     if negb has_type then Ret true
     else has_coordinates <- py_contains "coordinates" location ;;
          Ret (negb has_coordinates)) ;;
  if missing then
    Ret (false, "Missing 'type' or 'coordinates' in location.")
  else
    location_type <- py_getitem location "type" ;;
    allowed <- in_allowed_types location_type ;;
    if negb allowed then
      Ret (false, "Invalid type: " ++ py_str location_type
                  ++ ". Allowed types are: " ++ allowed_types_repr ++ ".")
    else
      coordinates <- py_getitem location "coordinates" ;;
      if py_eq location_type (JStr "Point") then
        n <- py_len coordinates ;;
        if negb (n =? 2) then
          Ret (false, "Point coordinates must contain exactly two elements (longitude, latitude).")
        else
          '(longitude, latitude) <- unpack2 coordinates ;;
          ok <- lon_lat_in (-180) 180 (-90) 90 longitude latitude ;;
          if negb ok then Ret (false, range_message_point)
          else Ret location_valid
      else if py_eq location_type (JStr "LineString") then
        n <- py_len coordinates ;;
        if n <? 2 then
          Ret (false, "LineString must have at least two points (each point is a pair of coordinates).")
        else
          points <- py_iter coordinates ;;
          r <- linestring_points points ;;
          or_location_valid r
      else if py_eq location_type (JStr "Polygon") then
        n <- py_len coordinates ;;
        if n <? 1 then
          Ret (false, "Polygon must have at least one linear ring (an array of arrays of coordinates).")
        else
          rings <- py_iter coordinates ;;
          r <- polygon_rings rings ;;
          or_location_valid r
      else Ret location_valid.

(** [check_location_in_json], lines 68-79. *)
Definition check_location_in_json (json_data : value) : result verdict :=
  present <- py_contains "location" json_data ;;
  if negb present then Ret (false, "The 'location' attribute is missing.")
  else
    location <- py_getitem json_data "location" ;;
    '(is_valid, message) <- validate_location_format location ;;
    Ret (is_valid, message).

Definition expected_prefix : string :=
  "https://raw.githubusercontent.com/smart-data-models/".

(** [context_url.startswith(expected_prefix)]: only a str has the
    method. *)
Definition py_startswith (v : value) (prefix : string) : result bool :=
  match v with
  | JStr s => Ret (is_prefix prefix s)
  | _ => Raise AttributeError
  end.

(** [isinstance(v, list)]. *)
Definition isinstance_list (v : value) : bool :=
  match v with
  | JList _ => true
  | _ => false
  end.

(** [validate_context_format], lines 82-96. *)
Definition validate_context_format (context : value) : result verdict :=
  bad_shape <-
    (if negb (isinstance_list context) then Ret true
     else n <- py_len context ;; Ret (n =? 0)) ;;
  if bad_shape then
    Ret (false, "The '@context' attribute should be a non-empty list")
  else
    context_url <- py_first context ;;
    ok <- py_startswith context_url expected_prefix ;;
    if negb ok then Ret (false, "Invalid @context URL.")
    else Ret (true, "Context format is valid.").

(** [check_context_in_json], lines 99-109. *)
Definition check_context_in_json (json_data : value) : result verdict :=
  present <- py_contains "@context" json_data ;;
  if negb present then Ret (false, "The '@context' attribute is missing.")
  else
    context <- py_getitem json_data "@context" ;;
    '(is_valid, message) <- validate_context_format context ;;
    Ret (is_valid, message).

(** The list of line 117. *)
Definition validation_functions : list (value -> result verdict) :=
  [check_location_in_json; check_context_in_json].

(** The loop of lines 124-127 over any list of checks. *)
Fixpoint run_validation (fs : list (value -> result verdict))
         (json_data : value) : result verdict :=
  match fs with
  | [] => Ret (true, "Data model is valid.")
  | validate_func :: rest =>
      '(is_valid, message) <- validate_func json_data ;;
      if negb is_valid then Ret (false, message)
      else run_validation rest json_data
  end.

(** [validate_json_data], lines 112-129. *)
Definition validate_json_data (json_data : value) : result verdict :=
  run_validation validation_functions json_data.

End Validators.

(** ** What the properties talk about *)

(** [v] is a number (a [bool] counts, as for Python) whose value lies in
    the closed interval [[lo, hi]]. *)
Definition in_interval (lo hi : Z) (v : value) : Prop :=
  exists q, num_of v = Some (XFin q) /\ (inject_Z lo <= q <= inject_Z hi)%Q.

(** [p] is a list [[longitude, latitude]] with [longitude] in
    [[-180, 180]] and [latitude] in [[lo, hi]]. *)
Definition pair_in (lo hi : Z) (p : value) : Prop :=
  exists a b, p = JList [a; b] /\ in_interval (-180) 180 a /\ in_interval lo hi b.


(** A JSON number, as opposed to a JSON boolean. *)
Definition is_json_number (v : value) : Prop :=
  match v with
  | JInt _ | JFloat _ => True
  | _ => False
  end.

(** The geometry [{"type": kind, "coordinates": coordinates}]. *)
Definition geometry (kind : string) (coordinates : value) : value :=
  JDict [("type", JStr kind); ("coordinates", coordinates)].

(** Both loops over points follow one scheme; they differ in the bounds
    of the latitude and in their messages. *)
Fixpoint points_loop (lo hi : Z) (len_msg range_msg : string)
         (points : list value) : result (option verdict) :=
  match points with
  | [] => Ret None
  | point :: rest =>
      n <- py_len point ;;
      if negb (n =? 2) then Ret (Some (false, len_msg))
      else
        '(longitude, latitude) <- unpack2 point ;;
        ok <- lon_lat_in (-180) 180 lo hi longitude latitude ;;
        if negb ok then Ret (Some (false, range_msg))
        else points_loop lo hi len_msg range_msg rest
  end.

Definition len_message_linestring : string :=
  "Each point in LineString must have exactly two elements (longitude, latitude).".
Definition len_message_polygon : string :=
  "Each point in a Polygon ring must have exactly two elements (longitude, latitude).".


Definition ring_len_message : string :=
  "Each linear ring in Polygon must have at least four points (coordinate pairs).".
Definition ring_closure_message : string :=
  "The first and last point in each linear ring must be the same to close the Polygon.".


(** C4 as the specification words it: the coordinates are two JSON
    numbers, in range. *)
Definition two_json_numbers_in_range (c : value) : Prop :=
  exists a b, c = JList [a; b] /\ is_json_number a /\ is_json_number b /\
              in_interval (-180) 180 a /\ in_interval (-90) 90 b.

(** An instance of the two renderings for closed examples: the set shown
    in the order it is written, a float shown as the fraction it denotes. *)
Definition shown_allowed_types : string := "{'Point', 'Polygon', 'LineString'}".

Definition shown_float (f : pyfloat) : string :=
  match f with
  | FFin q =>
      NilZero.string_of_int (Z.to_int (Qnum q)) ++ "/"
      ++ NilZero.string_of_int (Z.to_int (Z.pos (Qden q)))
  | FNegZero => "-0.0"
  | FInf => "inf"
  | FNegInf => "-inf"
  | FNan => "nan"
  end.

Definition valid_point : value := geometry "Point" (JList [JInt 10; JInt 20]).
Definition valid_context : value :=
  JList [JStr "https://raw.githubusercontent.com/smart-data-models/foo"].

(** ** The two routes *)

(** What [json.load(file)] and [request.get_json()] do, neither of which
    is defined in the source: return the parsed value, raise
    [json.JSONDecodeError], or raise another exception, named by its
    class. *)
Inductive load_outcome : Type :=
| Loaded (json_data : value)
| JSONDecodeError
| LoadRaises (name : string).

(** An uploaded file: its [filename] and what loading it gives. *)
Record file_storage : Type := {
  filename : string;
  content : load_outcome
}.

(** [jsonify({"message": s})] and [jsonify({"error": s})]. *)
Inductive json_body : Type :=
| JsonMessage (s : string)
| JsonError (s : string).

(** A route returns a body with a status, or lets an exception through:
    one of the validators, or one of the loader. *)
Inductive route_result : Type :=
| Responds (body : json_body) (status : Z)
| CoreRaises (e : exn)
| LoaderRaises (name : string).

(** [request.files[name]], the first file of that field. *)
Fixpoint get_file (name : string) (files : list (string * file_storage))
  : option file_storage :=
  match files with
  | [] => None
  | (k, f) :: files' => if String.eqb name k then Some f else get_file name files'
  end.

(** [json_data is None]. *)
Definition is_none (v : value) : bool :=
  match v with
  | JNull => true
  | _ => false
  end.

Section Routes.

Variable float_repr : pyfloat -> string.
Variable allowed_types_repr : string.

(** [upload_file], lines 134-169, on the files of the request.  An
    exception of the validators is not a [JSONDecodeError]: the [except]
    clause lets it through. *)
Definition upload_file (files : list (string * file_storage)) : route_result :=
  match get_file "file" files with
  | None => Responds (JsonError "No file provided") 400
  | Some file =>
      if String.eqb (filename file) "" then
        Responds (JsonError "No file selected") 400
      else
        match content file with
        | Loaded json_data =>
            match validate_json_data float_repr allowed_types_repr json_data with
            | Ret (is_valid, message) =>
                if is_valid then
                  Responds (JsonMessage "Data model is valid.") 200
                else
                  Responds (JsonError ("Validation failed: " ++ message)) 400
            | Raise e => CoreRaises e
            end
        | JSONDecodeError => Responds (JsonError "Invalid JSON file.") 400
        | LoadRaises name => LoaderRaises name
        end
  end.

(** [validate_api], lines 179-222, on what [request.get_json()] gives. *)
Definition validate_api (get_json : load_outcome) : route_result :=
  match get_json with
  | Loaded json_data =>
      if is_none json_data then Responds (JsonError "No JSON provided") 400
      else
        match validate_json_data float_repr allowed_types_repr json_data with
        | Ret (is_valid, message) =>
            if is_valid then
              Responds (JsonMessage "Data model is valid.") 200
            else
              Responds (JsonError ("Validation failed: " ++ message)) 400
        | Raise e => CoreRaises e
        end
  | JSONDecodeError => Responds (JsonError "Invalid JSON data.") 400
  | LoadRaises name => LoaderRaises name
  end.

End Routes.

(** ** Shapes of coordinates *)

(** A number, for Python: an [int], a [float] or a [bool]. *)
Definition is_number (v : value) : Prop := num_of v <> None.

(** A list of numbers; a list of lists of numbers; a list of those. *)
Definition list_of (P : value -> Prop) (v : value) : Prop :=
  exists l, v = JList l /\ Forall P l.

Definition well_shaped (kind : string) (coordinates : value) : Prop :=
  (kind = "Point" /\ list_of is_number coordinates) \/
  (kind = "LineString" /\ list_of (list_of is_number) coordinates) \/
  (kind = "Polygon" /\ list_of (list_of (list_of is_number)) coordinates).

(** A value that can be hashed: anything but a list or a dict. *)
Definition hashable (v : value) : Prop :=
  match v with
  | JList _ | JDict _ => False
  | _ => True
  end.

(** One of the three geometry kinds. *)
Definition allowed_kind (v : value) : Prop :=
  v = JStr "Point" \/ v = JStr "Polygon" \/ v = JStr "LineString".

(** Sample values for closed examples. *)
Definition origin : value := JList [JInt 0; JInt 0].
Definition square : list value :=
  [JList [JInt 0; JInt 0]; JList [JInt 0; JInt 1];
   JList [JInt 1; JInt 1]; JList [JInt 0; JInt 0]].
Definition valid_document : list (string * value) :=
  [("id", JStr "urn:ngsi-ld:Device:1"); ("location", valid_point);
   ("@context", valid_context)].
Definition named_file (json_data : value) : file_storage :=
  {| filename := "model.json"; content := Loaded json_data |}.

(** The failure messages of the two field checks and of
    [validate_context_format]. *)
Definition field_failure_messages : list string :=
  ["The 'location' attribute is missing.";
   "The '@context' attribute is missing.";
   "The '@context' attribute should be a non-empty list";
   "Invalid @context URL."].

(** A location of the expected structure: a mapping whose type, if any,
    is hashable and whose coordinates, when the type is one of the three
    kinds, have the nesting of that kind. *)
Definition well_shaped_location (location : value) : Prop :=
  exists d, location = JDict d /\
    (forall t, lookup "type" d = Some t -> hashable t) /\
    (forall kind c, lookup "type" d = Some (JStr kind) ->
                    lookup "coordinates" d = Some c ->
                    allowed_kind (JStr kind) -> well_shaped kind c).

(** An [@context] of the expected structure: if it is a non-empty list,
    its first element is a string. *)
Definition well_shaped_context (context : value) : Prop :=
  forall x rest, context = JList (x :: rest) -> exists s, x = JStr s.

(** The failure messages of [validate_location_format] that are fixed
    texts; the invalid-type message is the one that is built. *)
Definition location_failure_messages : list string :=
  ["Missing 'type' or 'coordinates' in location.";
   "Point coordinates must contain exactly two elements (longitude, latitude).";
   "Invalid coordinates for 'Point'. Longitude must be in [-180, 180] and latitude in [-90, 90].";
   "LineString must have at least two points (each point is a pair of coordinates).";
   "Each point in LineString must have exactly two elements (longitude, latitude).";
   "Invalid point in LineString. Longitude must be in [-180, 180] and latitude in [-90, 90].";
   "Polygon must have at least one linear ring (an array of arrays of coordinates).";
   "Each linear ring in Polygon must have at least four points (coordinate pairs).";
   "The first and last point in each linear ring must be the same to close the Polygon.";
   "Each point in a Polygon ring must have exactly two elements (longitude, latitude).";
   "Invalid point in Polygon. Longitude must be in [-180, 180] and latitude in [-90, 90]."].

(** ** Numbers *)

Lemma xle_fin_iff (x : xnum) (lo hi : Q) :
  xle (XFin lo) x = true /\ xle x (XFin hi) = true <->
  exists q, x = XFin q /\ (lo <= q <= hi)%Q.
Proof.
  split.
  - destruct x as [q| | |]; simpl; intros [H1 H2]; try discriminate.
    exists q. rewrite !Qle_bool_iff in *. auto.
  - intros (q & -> & H1 & H2). simpl. rewrite !Qle_bool_iff. auto.
Qed.

Lemma chained_le_true (lo hi : Z) (v : value) :
  chained_le lo v hi = Ret true <-> in_interval lo hi v.
Proof.
  unfold chained_le, int_le_value, value_le_int, in_interval.
  destruct (num_of v) as [x|]; cbn [bind].
  - destruct (xle (XFin (inject_Z lo)) x) eqn:E1.
    + split.
      * intros H. injection H as H.
        destruct (proj1 (xle_fin_iff x _ _) (conj E1 H)) as (q & -> & Hq).
        exists q. auto.
      * intros (q & [= ->] & Hq). f_equal.
        apply (xle_fin_iff (XFin q) (inject_Z lo) (inject_Z hi)). eauto.
    + split; [discriminate|].
      intros (q & [= ->] & Hq).
      assert (xle (XFin (inject_Z lo)) (XFin q) = true)
        by (apply (xle_fin_iff (XFin q) (inject_Z lo) (inject_Z hi)); eauto).
      congruence.
  - split; [discriminate|]. intros (q & H & _). discriminate.
Qed.

(** On numbers the chained comparison never raises. *)
Lemma chained_le_number (lo hi : Z) (v : value) (x : xnum) :
  num_of v = Some x -> exists b, chained_le lo v hi = Ret b.
Proof.
  intros H. unfold chained_le, int_le_value, value_le_int. rewrite H. cbn [bind].
  destruct (xle _ x); eauto.
Qed.

Lemma lon_lat_in_true (lo hi : Z) (a b : value) :
  lon_lat_in (-180) 180 lo hi a b = Ret true <->
  in_interval (-180) 180 a /\ in_interval lo hi b.
Proof.
  unfold lon_lat_in. rewrite <- !chained_le_true.
  destruct (chained_le (-180) a 180) as [[|]|e]; cbn [bind].
  - tauto.
  - split; [discriminate|]. intros [H _]. discriminate.
  - split; [discriminate|]. intros [H _]. discriminate.
Qed.

Lemma lon_lat_in_numbers (lo hi : Z) (a b : value) (x y : xnum) :
  num_of a = Some x -> num_of b = Some y ->
  exists r, lon_lat_in (-180) 180 lo hi a b = Ret r.
Proof.
  intros Ha Hb. unfold lon_lat_in.
  destruct (chained_le_number (-180) 180 a x Ha) as [r ->]. cbn [bind].
  destruct r; eauto. exact (chained_le_number lo hi b y Hb).
Qed.

(** ** Lengths *)

Lemma list_len_is_2 {A : Type} (l : list A) :
  (Z.of_nat (List.length l) =? 2) =
  match l with
  | [_; _] => true
  | _ => false
  end.
Proof.
  destruct l as [|a [|b [|c l]]]; try reflexivity.
  apply Z.eqb_neq. cbn [List.length]. lia.
Qed.

Lemma str_len_is_2 (s : string) :
  (Z.of_nat (String.length s) =? 2) =
  match s with
  | String _ (String _ EmptyString) => true
  | _ => false
  end.
Proof.
  destruct s as [|a [|b [|c s]]]; try reflexivity.
  apply Z.eqb_neq. cbn [String.length]. lia.
Qed.

(** ** The two loops over points *)


Lemma linestring_points_scheme (points : list value) :
  linestring_points points =
  points_loop (-90) 90 len_message_linestring range_message_linestring points.
Proof.
  induction points as [|p rest IH]; [reflexivity|].
  cbn [linestring_points points_loop].
  destruct (py_len p) as [n|e]; cbn [bind]; [|reflexivity].
  destruct (negb (n =? 2)); [reflexivity|].
  destruct (unpack2 p) as [[a b]|e]; cbn [bind]; [|reflexivity].
  destruct (lon_lat_in _ _ _ _ a b) as [ok|e]; cbn [bind]; [|reflexivity].
  destruct (negb ok); [reflexivity|exact IH].
Qed.

Lemma polygon_points_scheme (points : list value) :
  polygon_points points =
  points_loop (-180) 180 len_message_polygon range_message_polygon points.
Proof.
  induction points as [|p rest IH]; [reflexivity|].
  cbn [polygon_points points_loop].
  destruct (py_len p) as [n|e]; cbn [bind]; [|reflexivity].
  destruct (negb (n =? 2)); [reflexivity|].
  destruct (unpack2 p) as [[a b]|e]; cbn [bind]; [|reflexivity].
  destruct (lon_lat_in _ _ _ _ a b) as [ok|e]; cbn [bind]; [|reflexivity].
  destruct (negb ok); [reflexivity|exact IH].
Qed.

Section PointsLoop.

Variables (lo hi : Z) (len_msg range_msg : string).

(** A point in range lets the loop go on. *)
Lemma points_loop_pass (p : value) (rest : list value) :
  pair_in lo hi p ->
  points_loop lo hi len_msg range_msg (p :: rest)
  = points_loop lo hi len_msg range_msg rest.
Proof.
  intros (a & b & -> & Ha & Hb).
  cbn [points_loop py_len bind]. rewrite list_len_is_2.
  cbn [negb unpack2 py_iter bind].
  rewrite (proj2 (lon_lat_in_true lo hi a b) (conj Ha Hb)). reflexivity.
Qed.

(** Any other point ends the loop, with an outcome that is its own. *)
Lemma points_loop_cases (p : value) :
  pair_in lo hi p \/
  exists r, r <> Ret None /\
            forall rest, points_loop lo hi len_msg range_msg (p :: rest) = r.
Proof.
  destruct p as [| b | z | f | s | l | d];
    try (right; exists (Raise TypeError); split;
         [discriminate | reflexivity]).
  - (* a str *)
    right. cbn [points_loop py_len bind]. rewrite str_len_is_2.
    destruct s as [|a [|b [|c s]]];
      try (exists (Ret (Some (false, len_msg))); split;
           [discriminate | reflexivity]).
    exists (Raise TypeError). split; [discriminate | reflexivity].
  - (* a list *)
    cbn [points_loop py_len bind]. rewrite list_len_is_2.
    destruct l as [|a [|b [|c l]]];
      try (right; exists (Ret (Some (false, len_msg))); split;
           [discriminate | reflexivity]).
    cbn [negb unpack2 py_iter bind].
    destruct (lon_lat_in (-180) 180 lo hi a b) as [[|]|e] eqn:E.
    + left. exists a, b. split; [reflexivity|].
      apply lon_lat_in_true. exact E.
    + right. exists (Ret (Some (false, range_msg))). split;
        [discriminate | reflexivity].
    + right. exists (Raise e). split; [discriminate | reflexivity].
  - (* a dict *)
    right. cbn [points_loop py_len bind]. rewrite list_len_is_2.
    destruct d as [|[k1 v1] [|[k2 v2] [|c d]]];
      try (exists (Ret (Some (false, len_msg))); split;
           [discriminate | reflexivity]).
    exists (Raise TypeError). split; [discriminate | reflexivity].
Qed.

Lemma points_loop_stop (p : value) (rest : list value) :
  ~ pair_in lo hi p ->
  points_loop lo hi len_msg range_msg (p :: rest)
  = points_loop lo hi len_msg range_msg [p] /\
  points_loop lo hi len_msg range_msg [p] <> Ret None.
Proof.
  intros Hp. destruct (points_loop_cases p) as [H | (r & Hr & E)];
    [contradiction|].
  rewrite (E rest), (E []). auto.
Qed.

Lemma points_loop_skip (good rest : list value) :
  Forall (pair_in lo hi) good ->
  points_loop lo hi len_msg range_msg (good ++ rest)
  = points_loop lo hi len_msg range_msg rest.
Proof.
  induction 1 as [|p good Hp _ IH]; [reflexivity|].
  cbn [app]. rewrite points_loop_pass by exact Hp. exact IH.
Qed.

Lemma points_loop_done (points : list value) :
  points_loop lo hi len_msg range_msg points = Ret None <->
  Forall (pair_in lo hi) points.
Proof.
  induction points as [|p rest IH].
  - split; [constructor | reflexivity].
  - destruct (points_loop_cases p) as [H | (r & Hr & E)].
    + rewrite points_loop_pass by exact H. rewrite IH.
      split; [now constructor | now inversion 1].
    + rewrite (E rest). split; [congruence|].
      inversion 1 as [|? ? Hp _]; subst.
      exfalso. apply Hr. rewrite <- (E []).
      rewrite points_loop_pass by exact Hp. reflexivity.
Qed.

End PointsLoop.

(** What a point that is not an in-range pair makes of the loop, for the
    two shapes the messages are about. *)
Lemma points_loop_wrong_length (lo hi : Z) (len_msg range_msg : string)
      (l rest : list value) :
  List.length l <> 2%nat ->
  points_loop lo hi len_msg range_msg (JList l :: rest)
  = Ret (Some (false, len_msg)).
Proof.
  intros H. cbn [points_loop py_len bind]. rewrite list_len_is_2.
  destruct l as [|a [|b [|c l]]]; try reflexivity.
  now contradiction H.
Qed.

Lemma points_loop_out_of_range (lo hi : Z) (len_msg range_msg : string)
      (a b : value) (x y : xnum) (rest : list value) :
  num_of a = Some x -> num_of b = Some y ->
  ~ (in_interval (-180) 180 a /\ in_interval lo hi b) ->
  points_loop lo hi len_msg range_msg (JList [a; b] :: rest)
  = Ret (Some (false, range_msg)).
Proof.
  intros Ha Hb Hout. cbn [points_loop py_len bind]. rewrite list_len_is_2.
  cbn [negb unpack2 py_iter bind].
  destruct (lon_lat_in_numbers lo hi a b x y Ha Hb) as [[|] E]; rewrite E.
  - contradiction Hout. apply lon_lat_in_true. exact E.
  - reflexivity.
Qed.

(** A verdict returned from inside a loop is a failure. *)
Lemma points_loop_some (lo hi : Z) (len_msg range_msg : string)
      (points : list value) (v : verdict) :
  points_loop lo hi len_msg range_msg points = Ret (Some v) -> fst v = false.
Proof.
  induction points as [|p rest IH]; [discriminate|].
  cbn [points_loop].
  destruct (py_len p) as [n|e]; cbn [bind]; [|discriminate].
  destruct (negb (n =? 2)); [now intros [= <-]|].
  destruct (unpack2 p) as [[a b]|e]; cbn [bind]; [|discriminate].
  destruct (lon_lat_in _ _ _ _ a b) as [ok|e]; cbn [bind]; [|discriminate].
  destruct (negb ok); [now intros [= <-] | exact IH].
Qed.

(** ** Subscripts *)

Lemma seq_last_nth (l : list value) :
  l <> [] ->
  exists z, seq_last l = Ret z /\ nth_error l (List.length l - 1) = Some z.
Proof.
  induction l as [|x l IH]; [congruence|]. intros _.
  destruct l as [|y l].
  - exists x. split; reflexivity.
  - destruct IH as (z & E1 & E2); [discriminate|].
    exists z. split; [exact E1|].
    replace (List.length (x :: y :: l) - 1)%nat
      with (S (List.length (y :: l) - 1)) by (cbn [List.length]; lia).
    exact E2.
Qed.

Lemma seq_first_nth (l : list value) :
  l <> [] ->
  exists a, seq_first l = Ret a /\ nth_error l 0 = Some a.
Proof.
  destruct l as [|x l]; [congruence|]. intros _. exists x. split; reflexivity.
Qed.

(** ** Equality of two points *)




(** ** The loop over the rings of a Polygon *)












(** ** Prefixes *)

Lemma is_prefix_app (p s : string) :
  is_prefix p s = true <-> exists t, s = p ++ t.
Proof.
  revert s. induction p as [|a p IH]; intros s.
  - split; [intros _; exists s; reflexivity | reflexivity].
  - destruct s as [|b s]; cbn [is_prefix].
    + split; [discriminate | intros [t H]; discriminate].
    + rewrite andb_true_iff, Ascii.eqb_eq, IH. split.
      * intros [-> [t ->]]. exists t. reflexivity.
      * intros [t [= -> ->]]. split; [reflexivity | now exists t].
Qed.

(** ** Documents and their two fields *)

Section Properties.

Variable fr : pyfloat -> string.
Variable ar : string.

(** *** Unfolding the validators on the shapes the properties need *)

Lemma validate_point (c : value) :
  validate_location_format fr ar (geometry "Point" c) =
  (n <- py_len c ;;
   if negb (n =? 2) then
     Ret (false, "Point coordinates must contain exactly two elements (longitude, latitude).")
   else
     '(longitude, latitude) <- unpack2 c ;;
     ok <- lon_lat_in (-180) 180 (-90) 90 longitude latitude ;;
     if negb ok then Ret (false, range_message_point)
     else Ret location_valid).
Proof. reflexivity. Qed.

Lemma validate_linestring (c : value) :
  validate_location_format fr ar (geometry "LineString" c) =
  (n <- py_len c ;;
   if n <? 2 then
     Ret (false, "LineString must have at least two points (each point is a pair of coordinates).")
   else
     points <- py_iter c ;;
     r <- linestring_points points ;;
     or_location_valid r).
Proof. reflexivity. Qed.

Lemma validate_polygon (c : value) :
  validate_location_format fr ar (geometry "Polygon" c) =
  (n <- py_len c ;;
   if n <? 1 then
     Ret (false, "Polygon must have at least one linear ring (an array of arrays of coordinates).")
   else
     rings <- py_iter c ;;
     r <- polygon_rings rings ;;
     or_location_valid r).
Proof. reflexivity. Qed.

(** On a dict, [key in d] and [d[key]] are the lookup of the key. *)
Lemma check_location_dict (d : list (string * value)) :
  check_location_in_json fr ar (JDict d) =
  match lookup "location" d with
  | None => Ret (false, "The 'location' attribute is missing.")
  | Some location => validate_location_format fr ar location
  end.
Proof.
  unfold check_location_in_json. cbn [py_contains py_getitem bind].
  destruct (lookup "location" d) as [location|]; cbn [negb bind];
    [|reflexivity].
  destruct (validate_location_format fr ar location) as [[b m]|e];
    reflexivity.
Qed.

Lemma check_context_dict (d : list (string * value)) :
  check_context_in_json (JDict d) =
  match lookup "@context" d with
  | None => Ret (false, "The '@context' attribute is missing.")
  | Some context => validate_context_format context
  end.
Proof.
  unfold check_context_in_json. cbn [py_contains py_getitem bind].
  destruct (lookup "@context" d) as [context|]; cbn [negb bind];
    [|reflexivity].
  destruct (validate_context_format context) as [[b m]|e]; reflexivity.
Qed.

(** The loop of [validate_json_data], over any list of checks: the checks
    that pass are skipped, the first that fails gives the verdict. *)
Lemma run_validation_skip (passing rest : list (value -> result verdict))
      (json : value) :
  Forall (fun f => exists m, f json = Ret (true, m)) passing ->
  run_validation (passing ++ rest) json = run_validation rest json.
Proof.
  induction 1 as [|f passing [m Hf] _ IH]; [reflexivity|].
  cbn [app run_validation]. rewrite Hf. cbn [bind negb]. exact IH.
Qed.

Lemma run_validation_first_failure
      (passing rest : list (value -> result verdict))
      (f : value -> result verdict) (json : value) (m : string) :
  Forall (fun g => exists m', g json = Ret (true, m')) passing ->
  f json = Ret (false, m) ->
  run_validation (passing ++ f :: rest) json = Ret (false, m).
Proof.
  intros Hp Hf. rewrite (run_validation_skip passing (f :: rest) json Hp).
  cbn [run_validation]. rewrite Hf. reflexivity.
Qed.

Lemma run_validation_all_pass (fs : list (value -> result verdict))
      (json : value) :
  Forall (fun f => exists m, f json = Ret (true, m)) fs ->
  run_validation fs json = Ret (true, "Data model is valid.").
Proof.
  intros H. rewrite <- (app_nil_r fs).
  rewrite (run_validation_skip fs [] json H). reflexivity.
Qed.

Lemma validate_json_data_cases (json : value) :
  validate_json_data fr ar json
  = match check_location_in_json fr ar json with
    | Ret (true, _) =>
        match check_context_in_json json with
        | Ret (true, _) => Ret (true, "Data model is valid.")
        | failure => failure
        end
    | failure => failure
    end.
Proof.
  unfold validate_json_data, validation_functions.
  destruct (check_location_in_json fr ar json) as [[[|] m1]|e] eqn:E1.
  - destruct (check_context_in_json json) as [[[|] m2]|e] eqn:E2.
    + apply run_validation_all_pass.
      repeat constructor; eauto.
    + apply (run_validation_first_failure
               [check_location_in_json fr ar] []); [|exact E2].
      repeat constructor; eauto.
    + cbn [run_validation]. rewrite E1. cbn [bind negb]. rewrite E2.
      reflexivity.
  - exact (run_validation_first_failure [] _ _ json m1 (Forall_nil _) E1).
  - cbn [run_validation]. rewrite E1. reflexivity.
Qed.

Lemma validate_context_cons (x : value) (rest : list value) :
  validate_context_format (JList (x :: rest)) =
  (ok <- py_startswith x expected_prefix ;;
   if negb ok then Ret (false, "Invalid @context URL.")
   else Ret (true, "Context format is valid.")).
Proof.
  unfold validate_context_format.
  cbn [isinstance_list negb py_len bind].
  replace (Z.of_nat (List.length (x :: rest)) =? 0) with false
    by (symmetry; apply Z.eqb_neq; cbn [List.length]; lia).
  reflexivity.
Qed.

Lemma validate_context_not_a_list (context : value) :
  (forall x rest, context <> JList (x :: rest)) ->
  validate_context_format context
  = Ret (false, "The '@context' attribute should be a non-empty list").
Proof.
  intros H. destruct context as [| | | | | [|x rest] |]; try reflexivity.
  now contradiction (H x rest).
Qed.

(** The Point branch either accepts a pair in range or does not
    succeed at all. *)
Lemma validate_point_cases (c : value) :
  (exists a b, c = JList [a; b] /\
               in_interval (-180) 180 a /\ in_interval (-90) 90 b /\
               validate_location_format fr ar (geometry "Point" c)
               = Ret location_valid) \/
  (forall m, validate_location_format fr ar (geometry "Point" c)
             <> Ret (true, m)).
Proof.
  rewrite validate_point.
  destruct c as [| b | z | f | s | l | d]; try (right; discriminate).
  - right. cbn [py_len bind]. rewrite str_len_is_2.
    destruct s as [|a [|b [|c s]]]; discriminate.
  - cbn [py_len bind]. rewrite list_len_is_2.
    destruct l as [|a [|b [|c l]]]; try (right; discriminate).
    cbn [negb unpack2 py_iter bind].
    destruct (lon_lat_in (-180) 180 (-90) 90 a b) as [[|]|e] eqn:E;
      try (right; discriminate).
    left. exists a, b. apply lon_lat_in_true in E. destruct E.
    repeat split; assumption.
  - right. cbn [py_len bind]. rewrite list_len_is_2.
    destruct d as [|[k1 v1] [|[k2 v2] [|c d]]]; discriminate.
Qed.

Lemma len_lt_1 {A : Type} (l : list A) :
  l <> [] -> (Z.of_nat (List.length l) <? 1) = false.
Proof.
  intros H. apply Z.ltb_ge. destruct l; [congruence | cbn [List.length]; lia].
Qed.

(** The Polygon branch on a non-empty list of rings. *)
Lemma validate_polygon_rings (rings : list value) :
  rings <> [] ->
  validate_location_format fr ar (geometry "Polygon" (JList rings)) =
  (r <- polygon_rings rings ;; or_location_valid r).
Proof.
  intros H. rewrite validate_polygon. cbn [py_len bind].
  rewrite (len_lt_1 rings H). reflexivity.
Qed.



(** One ring that is a list of at least four points: the closure check,
    then the points. *)
Lemma polygon_rings_one_eval (pts : list value) (a z : value) :
  (4 <= List.length pts)%nat ->
  nth_error pts 0 = Some a ->
  nth_error pts (List.length pts - 1) = Some z ->
  polygon_rings [JList pts] =
  if py_ne a z then Ret (Some (false, ring_closure_message))
  else
    r <- points_loop (-180) 180 len_message_polygon range_message_polygon pts ;;
    match r with
    | Some v => Ret (Some v)
    | None => Ret None
    end.
Proof.
  intros Hlen Na Nz. cbn [polygon_rings py_len bind].
  replace (Z.of_nat (List.length pts) <? 4) with false
    by (symmetry; apply Z.ltb_ge; lia).
  assert (Hne : pts <> []) by (intros ->; cbn in Hlen; lia).
  destruct (seq_first_nth pts Hne) as (a' & Ea & Na').
  destruct (seq_last_nth pts Hne) as (z' & Ez & Nz').
  rewrite Na in Na'. rewrite Nz in Nz'.
  injection Na' as <-. injection Nz' as <-.
  cbn [py_first py_last]. rewrite Ea, Ez. cbn [bind py_iter].
  rewrite polygon_points_scheme. reflexivity.
Qed.

(** *** Claims *)

(** C1. [validate_json_data] runs [check_location_in_json], then
    [check_context_in_json]: the verdict (or the exception) of the first
    check that does not pass is the outcome, unmodified; when both pass
    the outcome is exactly [(True, "Data model is valid.")].  In
    particular, when both checks would fail, the message is that of the
    location check. *)
Theorem validate_json_data_order (json : value) :
  validation_functions fr ar
  = [check_location_in_json fr ar; check_context_in_json] /\
  validate_json_data fr ar json
  = match check_location_in_json fr ar json with
    | Ret (true, _) =>
        match check_context_in_json json with
        | Ret (true, _) => Ret (true, "Data model is valid.")
        | failure => failure
        end
    | failure => failure
    end /\
  (forall m1 m2,
      check_location_in_json fr ar json = Ret (false, m1) ->
      check_context_in_json json = Ret (false, m2) ->
      validate_json_data fr ar json = Ret (false, m1)).
Proof.
  split; [reflexivity|]. split; [apply validate_json_data_cases|].
  intros m1 m2 E1 _. rewrite validate_json_data_cases, E1. reflexivity.
Qed.

(** C7. A document without a [location] key is answered
    [(False, "The 'location' attribute is missing.")]; a document whose
    [location] passes and that has no [@context] key is answered
    [(False, "The '@context' attribute is missing.")]. *)
Theorem missing_attributes (d : list (string * value)) :
  (lookup "location" d = None ->
   validate_json_data fr ar (JDict d)
   = Ret (false, "The 'location' attribute is missing.")) /\
  (forall location m,
      lookup "location" d = Some location ->
      validate_location_format fr ar location = Ret (true, m) ->
      lookup "@context" d = None ->
      validate_json_data fr ar (JDict d)
      = Ret (false, "The '@context' attribute is missing.")).
Proof.
  split.
  - intros H.
    rewrite (validate_json_data_cases (JDict d)).
    rewrite check_location_dict, H. reflexivity.
  - intros location m Hl Hv Hc.
    rewrite (validate_json_data_cases (JDict d)).
    rewrite check_location_dict, Hl, Hv, check_context_dict, Hc.
    reflexivity.
Qed.

(** C9. The outcome of [validate_json_data] on a document depends only on
    its [location] and [@context] entries: two documents that agree on
    the presence and the value of both keys get the same outcome,
    whatever other keys they have. *)
Theorem only_location_and_context (d1 d2 : list (string * value)) :
  lookup "location" d1 = lookup "location" d2 ->
  lookup "@context" d1 = lookup "@context" d2 ->
  validate_json_data fr ar (JDict d1) = validate_json_data fr ar (JDict d2).
Proof.
  intros Hl Hc.
  rewrite (validate_json_data_cases (JDict d1)).
  rewrite (validate_json_data_cases (JDict d2)).
  rewrite !check_location_dict, !check_context_dict, Hl, Hc. reflexivity.
Qed.

(** C10. Presence of [@context] is key membership alone: when the key is
    there and its value is anything but a non-empty list (null, a
    string, a mapping, an empty list, ...), the context check answers
    [(False, "The '@context' attribute should be a non-empty list")],
    not the missing-attribute message, and so does
    [validate_json_data] once the location check has passed. *)
Theorem context_present_not_a_list (d : list (string * value))
        (context : value) :
  lookup "@context" d = Some context ->
  (forall x rest, context <> JList (x :: rest)) ->
  check_context_in_json (JDict d)
  = Ret (false, "The '@context' attribute should be a non-empty list") /\
  check_context_in_json (JDict d)
  <> Ret (false, "The '@context' attribute is missing.") /\
  (forall m,
      check_location_in_json fr ar (JDict d) = Ret (true, m) ->
      validate_json_data fr ar (JDict d)
      = Ret (false, "The '@context' attribute should be a non-empty list")).
Proof.
  intros Hc Hn.
  assert (E : check_context_in_json (JDict d)
              = Ret (false, "The '@context' attribute should be a non-empty list")).
  { rewrite check_context_dict, Hc.
    apply validate_context_not_a_list, Hn. }
  split; [exact E|]. split; [rewrite E; discriminate|].
  intros m Hl. rewrite validate_json_data_cases, Hl, E. reflexivity.
Qed.

(** C6, as the code has it.  [validate_context_format] succeeds exactly
    on a non-empty list whose first element is a string that starts
    with ["https://raw.githubusercontent.com/smart-data-models/"].  When
    the first element is a string without that prefix, the message is
    the fixed text ["Invalid @context URL."], which does not contain the
    URL.  The elements after the first are never inspected: the outcome
    is that of the one-element list. *)
Theorem context_format (context : value) :
  ((exists m, validate_context_format context = Ret (true, m)) <->
   exists t rest, context = JList (JStr (expected_prefix ++ t) :: rest)) /\
  (forall s rest,
      context = JList (JStr s :: rest) ->
      (forall t, s <> expected_prefix ++ t) ->
      validate_context_format context = Ret (false, "Invalid @context URL.")) /\
  (forall x rest,
      context = JList (x :: rest) ->
      validate_context_format context = validate_context_format (JList [x])) /\
  validate_context_format
    (JList [JStr "https://raw.githubusercontent.com/smart-data-models/foo"])
  = Ret (true, "Context format is valid.") /\
  validate_context_format (JList [JStr "http://other.org/x"])
  = Ret (false, "Invalid @context URL.").
Proof.
  split; [|split; [|split; [|split; reflexivity]]].
  - split.
    + intros [m H].
      destruct context as [| | | | | [|x rest] |]; try discriminate.
      rewrite validate_context_cons in H.
      destruct x as [| | | | s | |]; try discriminate.
      cbn [py_startswith bind] in H.
      destruct (is_prefix expected_prefix s) eqn:E; [|discriminate].
      apply is_prefix_app in E. destruct E as [t ->]. now exists t, rest.
    + intros (t & rest & ->). exists "Context format is valid.".
      rewrite validate_context_cons. cbn [py_startswith bind].
      rewrite (proj2 (is_prefix_app expected_prefix (expected_prefix ++ t)))
        by now exists t.
      reflexivity.
  - intros s rest -> Hs. rewrite validate_context_cons.
    cbn [py_startswith bind].
    destruct (is_prefix expected_prefix s) eqn:E; [|reflexivity].
    apply is_prefix_app in E. destruct E as [t ->]. now contradiction (Hs t).
  - intros x rest ->. now rewrite !validate_context_cons.
Qed.

(** C2, what the code does.  The validators raise on malformed
    structure instead of returning a verdict: a root document that is a
    number ([in] on an [int]), [coordinates] that is a number ([len] of
    an [int]), and an [@context] list whose first element is a number
    (no [startswith] on an [int]). *)
Theorem validators_raise (z : Z) :
  validate_json_data fr ar (JInt z) = Raise TypeError /\
  validate_json_data fr ar
    (JDict [("location", geometry "Point" (JInt z))])
  = Raise TypeError /\
  validate_json_data fr ar
    (JDict [("location", geometry "Point" (JList [JInt 10; JInt 20]));
            ("@context", JList [JInt z])])
  = Raise AttributeError /\
  validate_location_format fr ar (JInt z) = Raise TypeError /\
  validate_location_format fr ar (geometry "Point" (JInt z))
  = Raise TypeError /\
  validate_context_format (JList [JInt z]) = Raise AttributeError.
Proof. repeat split; reflexivity. Qed.

(** C4, as the code has it.  For a geometry of type Point, validation
    succeeds iff [coordinates] is a list of exactly two elements, each a
    number or a boolean (which compares as 1 or 0), the first in
    [[-180, 180]] and the second in [[-90, 90]], bounds included.
    Coordinates of another length get the length message; two numbers of
    which one is out of range get the range message.  [[200, 10]] is
    invalid with the range message; [[10, 20]] is valid, and so is the
    corner [[180, -90]]. *)
Theorem point_geometry (c : value) :
  ((exists m, validate_location_format fr ar (geometry "Point" c)
              = Ret (true, m)) <->
   exists a b, c = JList [a; b] /\
               in_interval (-180) 180 a /\ in_interval (-90) 90 b) /\
  (forall n, py_len c = Ret n -> n <> 2 ->
             validate_location_format fr ar (geometry "Point" c)
             = Ret (false, "Point coordinates must contain exactly two elements (longitude, latitude).")) /\
  (forall a b x y,
      c = JList [a; b] -> num_of a = Some x -> num_of b = Some y ->
      ~ (in_interval (-180) 180 a /\ in_interval (-90) 90 b) ->
      validate_location_format fr ar (geometry "Point" c)
      = Ret (false, "Invalid coordinates for 'Point'. Longitude must be in [-180, 180] and latitude in [-90, 90].")) /\
  validate_location_format fr ar (geometry "Point" (JList [JInt 200; JInt 10]))
  = Ret (false, "Invalid coordinates for 'Point'. Longitude must be in [-180, 180] and latitude in [-90, 90].") /\
  validate_location_format fr ar (geometry "Point" (JList [JInt 10; JInt 20]))
  = Ret (true, "Location format is valid.") /\
  validate_location_format fr ar (geometry "Point" (JList [JInt 180; JInt (-90)]))
  = Ret (true, "Location format is valid.").
Proof.
  split; [|split; [|split; [|repeat split; reflexivity]]].
  - split.
    + intros [m H].
      destruct (validate_point_cases c) as [(a & b & -> & Ha & Hb & _) | N].
      * now exists a, b.
      * now contradiction (N m).
    + intros (a & b & -> & Ha & Hb).
      exists "Location format is valid.". rewrite validate_point.
      cbn [py_len bind]. rewrite list_len_is_2.
      cbn [negb unpack2 py_iter bind].
      rewrite (proj2 (lon_lat_in_true (-90) 90 a b) (conj Ha Hb)).
      reflexivity.
  - intros n Hn Hne. rewrite validate_point, Hn. cbn [bind].
    apply Z.eqb_neq in Hne. rewrite Hne. reflexivity.
  - intros a b x y -> Ha Hb Hout. rewrite validate_point.
    cbn [py_len bind]. rewrite list_len_is_2.
    cbn [negb unpack2 py_iter bind].
    destruct (lon_lat_in_numbers (-90) 90 a b x y Ha Hb) as [[|] E];
      rewrite E.
    + contradiction Hout. apply lon_lat_in_true. exact E.
    + reflexivity.
Qed.


(** A number equals itself where a list compares its elements: by value,
    or, for NaN, as the same object. *)
Lemma number_eq_self (a : value) (v : xnum) :
  num_of a = Some v -> (same_nan a a || py_eq a a) = true.
Proof.
  destruct a as [| b | z | f | | |]; try discriminate; intros _.
  - cbn [same_nan orb py_eq num_of xeq]. apply Qeq_bool_refl.
  - cbn [same_nan orb py_eq num_of xeq]. apply Qeq_bool_refl.
  - destruct f; try reflexivity.
    cbn [same_nan orb py_eq num_of float_num xeq]. apply Qeq_bool_refl.
Qed.

(** C3.  The Polygon branch bounds the latitude by [[-180, 180]] where
    the Point and LineString branches bound it by [[-90, 90]].  For a pair
    whose longitude is in [[-180, 180]] and whose latitude is any number:
    as a Polygon point it passes exactly when the latitude is in
    [[-180, 180]] (the loop goes on and a closed ring made of the pair is
    valid) and is rejected with the Polygon range message otherwise; as a
    Point and as a LineString point it passes exactly when the latitude is
    in [[-90, 90]] and gets their range messages otherwise.  So a latitude
    strictly between 90 and 180, or strictly between -180 and -90, passes
    in a Polygon and fails in a Point and in a LineString.  The bounds
    themselves: 180 and -180 are accepted in a Polygon, 181 and -181 are
    not; 90 is accepted in a Point and 91 is not. *)
Theorem polygon_latitude_bound (lon lat : value) (v : xnum) :
  in_interval (-180) 180 lon ->
  num_of lat = Some v ->
  (in_interval (-180) 180 lat ->
   (forall rest,
       polygon_points (JList [lon; lat] :: rest) = polygon_points rest) /\
   validate_location_format fr ar
     (geometry "Polygon"
        (JList [JList [JList [lon; lat]; JList [lon; lat];
                       JList [lon; lat]; JList [lon; lat]]]))
   = Ret (true, "Location format is valid.")) /\
  (~ in_interval (-180) 180 lat ->
   (forall rest,
       polygon_points (JList [lon; lat] :: rest)
       = Ret (Some (false, "Invalid point in Polygon. Longitude must be in [-180, 180] and latitude in [-90, 90]."))) /\
   validate_location_format fr ar
     (geometry "Polygon"
        (JList [JList [JList [lon; lat]; JList [lon; lat];
                       JList [lon; lat]; JList [lon; lat]]]))
   = Ret (false, "Invalid point in Polygon. Longitude must be in [-180, 180] and latitude in [-90, 90].")) /\
  (in_interval (-90) 90 lat ->
   validate_location_format fr ar (geometry "Point" (JList [lon; lat]))
   = Ret (true, "Location format is valid.") /\
   validate_location_format fr ar
     (geometry "LineString" (JList [JList [lon; lat]; JList [lon; lat]]))
   = Ret (true, "Location format is valid.")) /\
  (~ in_interval (-90) 90 lat ->
   (forall rest,
       linestring_points (JList [lon; lat] :: rest)
       = Ret (Some (false, "Invalid point in LineString. Longitude must be in [-180, 180] and latitude in [-90, 90]."))) /\
   validate_location_format fr ar (geometry "Point" (JList [lon; lat]))
   = Ret (false, "Invalid coordinates for 'Point'. Longitude must be in [-180, 180] and latitude in [-90, 90].") /\
   validate_location_format fr ar
     (geometry "LineString" (JList [JList [lon; lat]; JList [lon; lat]]))
   = Ret (false, "Invalid point in LineString. Longitude must be in [-180, 180] and latitude in [-90, 90].")) /\
  (forall y,
      v = XFin y ->
      ((90 < y /\ y < 180) \/ (-180 < y /\ y < -90))%Q ->
      (forall rest,
          polygon_points (JList [lon; lat] :: rest) = polygon_points rest) /\
      validate_location_format fr ar
        (geometry "Polygon"
           (JList [JList [JList [lon; lat]; JList [lon; lat];
                          JList [lon; lat]; JList [lon; lat]]]))
      = Ret (true, "Location format is valid.") /\
      validate_location_format fr ar (geometry "Point" (JList [lon; lat]))
      = Ret (false, "Invalid coordinates for 'Point'. Longitude must be in [-180, 180] and latitude in [-90, 90].") /\
      validate_location_format fr ar
        (geometry "LineString" (JList [JList [lon; lat]; JList [lon; lat]]))
      = Ret (false, "Invalid point in LineString. Longitude must be in [-180, 180] and latitude in [-90, 90].")) /\
  validate_location_format fr ar
    (geometry "Polygon"
       (JList [JList [JList [JInt 0; JInt 180]; JList [JInt 0; JInt (-180)];
                      JList [JInt 0; JInt 100]; JList [JInt 0; JInt 180]]]))
  = Ret (true, "Location format is valid.") /\
  validate_location_format fr ar
    (geometry "Polygon"
       (JList [JList [JList [JInt 0; JInt 0]; JList [JInt 0; JInt 181];
                      JList [JInt 0; JInt 1]; JList [JInt 0; JInt 0]]]))
  = Ret (false, "Invalid point in Polygon. Longitude must be in [-180, 180] and latitude in [-90, 90].") /\
  validate_location_format fr ar
    (geometry "Polygon"
       (JList [JList [JList [JInt 0; JInt 0]; JList [JInt 0; JInt (-181)];
                      JList [JInt 0; JInt 1]; JList [JInt 0; JInt 0]]]))
  = Ret (false, "Invalid point in Polygon. Longitude must be in [-180, 180] and latitude in [-90, 90].") /\
  validate_location_format fr ar (geometry "Point" (JList [JInt 0; JInt 90]))
  = Ret (true, "Location format is valid.") /\
  validate_location_format fr ar (geometry "Point" (JList [JInt 0; JInt 91]))
  = Ret (false, "Invalid coordinates for 'Point'. Longitude must be in [-180, 180] and latitude in [-90, 90].").
Proof.
  intros Hlon Hlat.
  pose proof Hlon as (x & Hx & Hxr).
  assert (Hpp : py_eq (JList [lon; lat]) (JList [lon; lat]) = true).
  { cbn [py_eq]. rewrite (number_eq_self lon _ Hx), (number_eq_self lat _ Hlat).
    reflexivity. }
  assert (Hring : polygon_rings
                    [JList [JList [lon; lat]; JList [lon; lat];
                            JList [lon; lat]; JList [lon; lat]]]
                  = (r <- points_loop (-180) 180 len_message_polygon
                            range_message_polygon
                            [JList [lon; lat]; JList [lon; lat];
                             JList [lon; lat]; JList [lon; lat]] ;;
                     match r with
                     | Some w => Ret (Some w)
                     | None => Ret None
                     end)).
  { rewrite (polygon_rings_one_eval _ (JList [lon; lat]) (JList [lon; lat]));
      [|cbn [List.length]; lia | reflexivity | reflexivity].
    unfold py_ne. rewrite Hpp. reflexivity. }
  assert (P1 : in_interval (-180) 180 lat ->
               (forall rest,
                   polygon_points (JList [lon; lat] :: rest)
                   = polygon_points rest) /\
               validate_location_format fr ar
                 (geometry "Polygon"
                    (JList [JList [JList [lon; lat]; JList [lon; lat];
                                   JList [lon; lat]; JList [lon; lat]]]))
               = Ret (true, "Location format is valid.")).
  { intros Hin. split.
    + intros rest. rewrite !polygon_points_scheme.
      apply points_loop_pass. exists lon, lat. auto.
    + rewrite validate_polygon_rings by discriminate. rewrite Hring.
      rewrite (proj2 (points_loop_done _ _ _ _ _)); [reflexivity|].
      repeat constructor; exists lon, lat; auto. }
  assert (P4 : ~ in_interval (-90) 90 lat ->
               (forall rest,
                   linestring_points (JList [lon; lat] :: rest)
                   = Ret (Some (false, range_message_linestring))) /\
               validate_location_format fr ar
                 (geometry "Point" (JList [lon; lat]))
               = Ret (false, range_message_point) /\
               validate_location_format fr ar
                 (geometry "LineString"
                    (JList [JList [lon; lat]; JList [lon; lat]]))
               = Ret (false, range_message_linestring)).
  { intros Hout. split; [|split].
    + intros rest. rewrite linestring_points_scheme.
      apply (points_loop_out_of_range _ _ _ _ lon lat _ _ rest Hx Hlat).
      tauto.
    + rewrite validate_point. cbn [py_len bind]. rewrite list_len_is_2.
      cbn [negb unpack2 py_iter bind].
      destruct (lon_lat_in_numbers (-90) 90 lon lat _ _ Hx Hlat) as [[|] E];
        rewrite E; [|reflexivity].
      apply lon_lat_in_true in E. tauto.
    + rewrite validate_linestring. cbn [py_len List.length py_iter bind].
      rewrite linestring_points_scheme.
      rewrite (points_loop_out_of_range _ _ _ _ lon lat _ _ _ Hx Hlat);
        [reflexivity | tauto]. }
  repeat match goal with |- _ /\ _ => split end; try reflexivity.
  - exact P1.
  - (* a Polygon point, latitude outside [-180, 180] *)
    intros Hout. split.
    + intros rest. rewrite polygon_points_scheme.
      apply (points_loop_out_of_range _ _ _ _ lon lat _ _ rest Hx Hlat).
      tauto.
    + rewrite validate_polygon_rings by discriminate. rewrite Hring.
      rewrite (points_loop_out_of_range _ _ _ _ lon lat _ _ _ Hx Hlat);
        [reflexivity | tauto].
  - (* a Point and a LineString point, latitude in [-90, 90] *)
    intros Hin. split.
    + rewrite validate_point. cbn [py_len bind]. rewrite list_len_is_2.
      cbn [negb unpack2 py_iter bind].
      rewrite (proj2 (lon_lat_in_true (-90) 90 lon lat)) by auto.
      reflexivity.
    + rewrite validate_linestring. cbn [py_len List.length py_iter bind].
      rewrite linestring_points_scheme.
      rewrite (proj2 (points_loop_done _ _ _ _ _)); [reflexivity|].
      repeat constructor; exists lon, lat; auto.
  - exact P4.
  - (* strictly between the two bounds *)
    intros y -> Hy.
    assert (Hin : in_interval (-180) 180 lat).
    { exists y. split; [exact Hlat|]. unfold inject_Z. lra. }
    assert (Hout : ~ in_interval (-90) 90 lat).
    { intros (y' & E & Hy'). rewrite Hlat in E. injection E as <-.
      unfold inject_Z in Hy'. lra. }
    destruct (P1 Hin) as [A1 A2]. destruct (P4 Hout) as (_ & A3 & A4).
    repeat split; assumption.
Qed.

End Properties.

(** ** The properties on concrete documents *)


(** Both fields are invalid: the message is the one of [location]. *)
Lemma validate_json_data_order_witness :
  check_location_in_json shown_float shown_allowed_types
    (JDict [("location", JDict []); ("@context", JList [])])
  = Ret (false, "Missing 'type' or 'coordinates' in location.") /\
  check_context_in_json (JDict [("location", JDict []); ("@context", JList [])])
  = Ret (false, "The '@context' attribute should be a non-empty list") /\
  validate_json_data shown_float shown_allowed_types
    (JDict [("location", JDict []); ("@context", JList [])])
  = Ret (false, "Missing 'type' or 'coordinates' in location.").
Proof.
  split; [reflexivity|]. split; [reflexivity|].
  apply (proj2 (proj2 (validate_json_data_order shown_float shown_allowed_types
                         (JDict [("location", JDict []); ("@context", JList [])])))
           "Missing 'type' or 'coordinates' in location."
           "The '@context' attribute should be a non-empty list");
    reflexivity.
Defined.

Lemma missing_attributes_witness :
  lookup "location" [("id", JStr "urn:x"); ("location", valid_point)]
  = Some valid_point /\
  validate_location_format shown_float shown_allowed_types valid_point
  = Ret (true, "Location format is valid.") /\
  lookup "@context" [("id", JStr "urn:x"); ("location", valid_point)] = None /\
  validate_json_data shown_float shown_allowed_types
    (JDict [("id", JStr "urn:x"); ("location", valid_point)])
  = Ret (false, "The '@context' attribute is missing.").
Proof.
  split; [reflexivity|]. split; [reflexivity|]. split; [reflexivity|].
  apply (proj2 (missing_attributes shown_float shown_allowed_types
                  [("id", JStr "urn:x"); ("location", valid_point)])
           valid_point "Location format is valid."); reflexivity.
Defined.

Lemma only_location_and_context_witness :
  lookup "location" [("id", JInt 1); ("location", valid_point)]
  = lookup "location" [("location", valid_point); ("name", JNull);
                       ("type", JStr "Device")] /\
  lookup "@context" [("id", JInt 1); ("location", valid_point)]
  = lookup "@context" [("location", valid_point); ("name", JNull);
                       ("type", JStr "Device")] /\
  validate_json_data shown_float shown_allowed_types
    (JDict [("id", JInt 1); ("location", valid_point)])
  = validate_json_data shown_float shown_allowed_types
      (JDict [("location", valid_point); ("name", JNull);
              ("type", JStr "Device")]).
Proof.
  split; [reflexivity|]. split; [reflexivity|].
  apply (only_location_and_context shown_float shown_allowed_types);
    reflexivity.
Defined.

Lemma context_present_not_a_list_witness :
  lookup "@context" [("location", valid_point); ("@context", JNull)]
  = Some JNull /\
  (forall x rest, JNull <> JList (x :: rest)) /\
  validate_json_data shown_float shown_allowed_types
    (JDict [("location", valid_point); ("@context", JNull)])
  = Ret (false, "The '@context' attribute should be a non-empty list").
Proof.
  split; [reflexivity|]. split; [discriminate|].
  apply (proj2 (proj2 (context_present_not_a_list
                         shown_float shown_allowed_types
                         [("location", valid_point); ("@context", JNull)]
                         JNull eq_refl
                         (fun x rest (H : JNull = JList (x :: rest)) =>
                            eq_ind JNull
                              (fun v => match v with JNull => True | _ => False end)
                              I _ H)))
           "Location format is valid.").
  reflexivity.
Defined.

Lemma context_format_witness :
  (forall t, "http://other.org/x" <> expected_prefix ++ t) /\
  validate_context_format (JList [JStr "http://other.org/x"; valid_context])
  = Ret (false, "Invalid @context URL.").
Proof.
  assert (H : forall t, "http://other.org/x" <> expected_prefix ++ t)
    by (intros t; discriminate).
  split; [exact H|].
  apply (proj1 (proj2 (context_format
                         (JList [JStr "http://other.org/x"; valid_context])))
           "http://other.org/x" [valid_context] eq_refl H).
Defined.

Lemma point_geometry_witness :
  py_len (JList [JInt 1; JInt 2; JInt 3]) = Ret 3 /\
  3 <> 2 /\
  validate_location_format shown_float shown_allowed_types
    (geometry "Point" (JList [JInt 1; JInt 2; JInt 3]))
  = Ret (false, "Point coordinates must contain exactly two elements (longitude, latitude).").
Proof.
  assert (H : 3 <> 2) by discriminate.
  split; [reflexivity|]. split; [exact H|].
  apply (proj1 (proj2 (point_geometry shown_float shown_allowed_types
                         (JList [JInt 1; JInt 2; JInt 3])))
           3 eq_refl H).
Defined.


Lemma polygon_latitude_bound_witness :
  in_interval (-180) 180 (JInt 10) /\
  num_of (JInt 100) = Some (XFin 100) /\
  ((90 < 100 /\ 100 < 180) \/ (-180 < 100 /\ 100 < -90))%Q /\
  validate_location_format shown_float shown_allowed_types
    (geometry "Polygon"
       (JList [JList [JList [JInt 10; JInt 100]; JList [JInt 10; JInt 100];
                      JList [JInt 10; JInt 100]; JList [JInt 10; JInt 100]]]))
  = Ret (true, "Location format is valid.") /\
  validate_location_format shown_float shown_allowed_types
    (geometry "Point" (JList [JInt 10; JInt 100]))
  = Ret (false, "Invalid coordinates for 'Point'. Longitude must be in [-180, 180] and latitude in [-90, 90].").
Proof.
  assert (H1 : in_interval (-180) 180 (JInt 10)).
  { exists 10%Q. split; [reflexivity|]. split; discriminate. }
  assert (H2 : ((90 < 100 /\ 100 < 180) \/ (-180 < 100 /\ 100 < -90))%Q).
  { left. split; reflexivity. }
  split; [exact H1|]. split; [reflexivity|]. split; [exact H2|].
  pose proof (proj1 (proj2 (proj2 (proj2 (proj2
                (polygon_latitude_bound shown_float shown_allowed_types
                   (JInt 10) (JInt 100) (XFin 100) H1 eq_refl)))))
                100%Q eq_refl H2) as T.
  split; [exact (proj1 (proj2 T)) | exact (proj1 (proj2 (proj2 T)))].
Defined.

(** *** Where the code differs from the specification's words *)


(** The Point [[true, false]] is valid, and its coordinates are not
    numbers of the JSON document. *)
Lemma point_accepts_booleans :
  validate_location_format shown_float shown_allowed_types
    (geometry "Point" (JList [JBool true; JBool false]))
  = Ret (true, "Location format is valid.") /\
  ~ two_json_numbers_in_range (JList [JBool true; JBool false]).
Proof.
  split; [reflexivity|].
  intros (a & b & [= <- <-] & Ha & _). exact Ha.
Qed.


(** The message for a URL without the prefix does not contain the URL. *)
Lemma context_message_omits_url :
  validate_context_format (JList [JStr "http://other.org/x"])
  = Ret (false, "Invalid @context URL.") /\
  substring_in "http://other.org/x" "Invalid @context URL." = false.
Proof. split; reflexivity. Qed.

(** ** More of the validators and the two routes *)

Lemma in_interval_widen (lo hi lo' hi' : Z) (v : value) :
  lo' <= lo -> hi <= hi' -> in_interval lo hi v -> in_interval lo' hi' v.
Proof.
  intros Hlo Hhi (q & Hq & H1 & H2). exists q. split; [exact Hq|].
  rewrite Zle_Qle in Hlo. rewrite Zle_Qle in Hhi.
  split; eapply Qle_trans; eauto.
Qed.

Lemma pair_in_widen (lo hi lo' hi' : Z) (p : value) :
  lo' <= lo -> hi <= hi' -> pair_in lo hi p -> pair_in lo' hi' p.
Proof.
  intros Hlo Hhi (a & b & -> & Ha & Hb). exists a, b.
  repeat split; [exact Ha|]. exact (in_interval_widen lo hi lo' hi' b Hlo Hhi Hb).
Qed.

Lemma pair_in_is_list (lo hi : Z) (p : value) :
  pair_in lo hi p -> exists l, p = JList l.
Proof. intros (a & b & -> & _). now exists [a; b]. Qed.

(** After the loop over the points of a LineString, success means the
    loop ran to its end. *)
Lemma points_then_valid (points : list value) (m : string) :
  (r <- linestring_points points ;; or_location_valid r) = Ret (true, m) ->
  Forall (pair_in (-90) 90) points.
Proof.
  rewrite linestring_points_scheme.
  destruct (points_loop _ _ _ _ points) as [[v|]|e] eqn:P; cbn [bind].
  - intros [= ->]. apply points_loop_some in P. discriminate.
  - intros _. exact (proj1 (points_loop_done _ _ _ _ points) P).
  - discriminate.
Qed.

(** Membership of a string in a list, and in a str. *)
Lemma py_eq_str (x : value) (k : string) :
  py_eq x (JStr k) = true <-> x = JStr k.
Proof.
  destruct x; cbn [py_eq]; try (split; [discriminate | intros [=]]).
  rewrite String.eqb_eq. split; [now intros -> | now intros [= ->]].
Qed.

Lemma contains_str_in (k : string) (l : list value) :
  existsb (fun x => py_eq x (JStr k)) l = true <-> In (JStr k) l.
Proof.
  rewrite existsb_exists. split.
  - intros (x & Hx & E). apply py_eq_str in E. now subst.
  - intros H. exists (JStr k). split; [exact H | now apply py_eq_str].
Qed.

Lemma substring_in_app (needle s : string) :
  substring_in needle s = true <->
  exists before after, s = before ++ needle ++ after.
Proof.
  induction s as [|a s IH]; cbn [substring_in]; rewrite orb_true_iff.
  - rewrite is_prefix_app. split.
    + intros [[t H] | H]; [|discriminate]. now exists "", t.
    + intros (before & after & H). left.
      destruct before; [now exists after | discriminate].
  - rewrite is_prefix_app, IH. split.
    + intros [[t H] | (before & after & ->)].
      * now exists "", t.
      * now exists (String a before), after.
    + intros (before & after & H). destruct before as [|b before].
      * left. now exists after.
      * right. injection H as _ H. now exists before, after.
Qed.

(** The verdicts a loop returns. *)
Lemma points_loop_verdict (lo hi : Z) (len_msg range_msg : string)
      (points : list value) (v : verdict) :
  points_loop lo hi len_msg range_msg points = Ret (Some v) ->
  v = (false, len_msg) \/ v = (false, range_msg).
Proof.
  induction points as [|p rest IH]; [discriminate|].
  cbn [points_loop].
  destruct (py_len p) as [n|e]; cbn [bind]; [|discriminate].
  destruct (negb (n =? 2)); [intros [= <-]; now left|].
  destruct (unpack2 p) as [[a b]|e]; cbn [bind]; [|discriminate].
  destruct (lon_lat_in _ _ _ _ a b) as [ok|e]; cbn [bind]; [|discriminate].
  destruct (negb ok); [intros [= <-]; now right | exact IH].
Qed.

Lemma polygon_rings_verdict (rings : list value) (v : verdict) :
  polygon_rings rings = Ret (Some v) ->
  v = (false, ring_len_message) \/ v = (false, ring_closure_message) \/
  v = (false, len_message_polygon) \/ v = (false, range_message_polygon).
Proof.
  induction rings as [|r rest IH]; [discriminate|].
  cbn [polygon_rings].
  destruct (py_len r) as [n|e]; cbn [bind]; [|discriminate].
  destruct (n <? 4); [intros [= <-]; now left|].
  destruct (py_first r) as [a|e]; cbn [bind]; [|discriminate].
  destruct (py_last r) as [z|e]; cbn [bind]; [|discriminate].
  destruct (py_ne a z); [intros [= <-]; right; now left|].
  destruct (py_iter r) as [pts|e]; cbn [bind]; [|discriminate].
  rewrite polygon_points_scheme.
  destruct (points_loop _ _ _ _ pts) as [[w|]|e] eqn:P; cbn [bind];
    [|exact IH|discriminate].
  intros [= <-]. right; right. exact (points_loop_verdict _ _ _ _ _ _ P).
Qed.

(** On lists of numbers the loops return. *)
Lemma points_loop_returns (lo hi : Z) (len_msg range_msg : string)
      (points : list value) :
  Forall (list_of is_number) points ->
  exists r, points_loop lo hi len_msg range_msg points = Ret r.
Proof.
  induction 1 as [|p rest (l & -> & Hl) _ IH]; [now exists None|].
  cbn [points_loop py_len bind]. rewrite list_len_is_2.
  destruct l as [|a [|b [|c l]]]; cbn [negb]; eauto.
  cbn [unpack2 py_iter bind].
  inversion Hl as [|? ? Ha Hl']; subst. inversion Hl' as [|? ? Hb _]; subst.
  unfold is_number in Ha, Hb.
  destruct (num_of a) as [x|] eqn:Ea; [|congruence].
  destruct (num_of b) as [y|] eqn:Eb; [|congruence].
  destruct (lon_lat_in_numbers lo hi a b x y Ea Eb) as [[|] ->];
    cbn [bind negb]; eauto.
Qed.

Lemma polygon_rings_returns (rings : list value) :
  Forall (list_of (list_of is_number)) rings ->
  exists r, polygon_rings rings = Ret r.
Proof.
  induction 1 as [|ring rest (pts & -> & Hpts) _ IH]; [now exists None|].
  cbn [polygon_rings py_len bind].
  destruct (Z.of_nat (List.length pts) <? 4) eqn:E; [eauto|].
  apply Z.ltb_ge in E.
  assert (Hne : pts <> []) by (intros ->; cbn in E; lia).
  destruct (seq_first_nth pts Hne) as (a & Ea & _).
  destruct (seq_last_nth pts Hne) as (z & Ez & _).
  cbn [py_first py_last]. rewrite Ea, Ez. cbn [bind].
  destruct (py_ne a z); [eauto|]. cbn [py_iter bind].
  rewrite polygon_points_scheme.
  destruct (points_loop_returns (-180) 180 len_message_polygon
              range_message_polygon pts Hpts) as [[v|] ->]; cbn [bind]; eauto.
Qed.

Section Coverage.

Variable fr : pyfloat -> string.
Variable ar : string.

Lemma len_lt_2 {A : Type} (l : list A) :
  (2 <= List.length l)%nat -> (Z.of_nat (List.length l) <? 2) = false.
Proof. intros H. apply Z.ltb_ge. lia. Qed.

Lemma validate_linestring_points (points : list value) :
  (2 <= List.length points)%nat ->
  validate_location_format fr ar (geometry "LineString" (JList points)) =
  (r <- linestring_points points ;; or_location_valid r).
Proof.
  intros H. rewrite validate_linestring. cbn [py_len bind].
  rewrite (len_lt_2 points H). reflexivity.
Qed.

Lemma validate_point_ok (c : value) :
  (exists m, validate_location_format fr ar (geometry "Point" c)
             = Ret (true, m)) <->
  pair_in (-90) 90 c.
Proof.
  split.
  - intros [m H].
    destruct (validate_point_cases fr ar c) as [(a & b & -> & Ha & Hb & _) | N].
    + exists a, b. auto.
    + now contradiction (N m).
  - intros (a & b & -> & Ha & Hb). exists "Location format is valid.".
    rewrite validate_point. cbn [py_len bind]. rewrite list_len_is_2.
    cbn [negb unpack2 py_iter bind].
    rewrite (proj2 (lon_lat_in_true (-90) 90 a b) (conj Ha Hb)). reflexivity.
Qed.

(** X1.  A LineString is valid exactly when its coordinates are a list of
    at least two pairs, each with longitude in [[-180, 180]] and latitude
    in [[-90, 90]]; a str or a dict of coordinates never is. *)
Theorem linestring_valid_iff (c : value) :
  (exists m, validate_location_format fr ar (geometry "LineString" c)
             = Ret (true, m)) <->
  exists points, c = JList points /\ (2 <= List.length points)%nat /\
                 Forall (pair_in (-90) 90) points.
Proof.
  split.
  - intros [m H]. rewrite validate_linestring in H.
    destruct c as [| b | z | f | s | points | d]; try discriminate.
    + (* a str: its points would be characters *)
      cbn [py_len bind] in H.
      destruct (_ <? 2) eqn:E; [discriminate|].
      destruct s as [|a s]; [discriminate|].
      cbn [py_iter chars bind] in H. apply points_then_valid in H.
      inversion H as [|? ? Hp _]; subst.
      apply pair_in_is_list in Hp. destruct Hp as [l [=]].
    + (* a list *)
      cbn [py_len bind] in H.
      destruct (_ <? 2) eqn:E; [discriminate|].
      apply Z.ltb_ge in E. cbn [py_iter bind] in H.
      exists points. split; [reflexivity|]. split; [lia|].
      exact (points_then_valid _ _ H).
    + (* a dict: its points would be keys *)
      cbn [py_len bind] in H.
      destruct (_ <? 2) eqn:E; [discriminate|].
      destruct d as [|[k v] d]; [discriminate|].
      cbn [py_iter map fst bind] in H. apply points_then_valid in H.
      inversion H as [|? ? Hp _]; subst.
      apply pair_in_is_list in Hp. destruct Hp as [l [=]].
  - intros (points & -> & Hlen & HF). exists "Location format is valid.".
    rewrite (validate_linestring_points points Hlen).
    rewrite linestring_points_scheme.
    rewrite (proj2 (points_loop_done _ _ _ _ points) HF). reflexivity.
Qed.

(** X2.  The checks of a LineString come in order: fewer than two
    coordinates give the length message of the LineString; then the
    points are taken in order, and the first one that is not a pair in range
    decides, whatever follows it: a list of another length than 2 gives
    the point-length message, two numbers out of range the range
    message. *)
Theorem linestring_first_violation :
  (forall c n, py_len c = Ret n -> n < 2 ->
     validate_location_format fr ar (geometry "LineString" c)
     = Ret (false, "LineString must have at least two points (each point is a pair of coordinates).")) /\
  (forall good p rest rest',
     Forall (pair_in (-90) 90) good -> ~ pair_in (-90) 90 p ->
     (2 <= List.length (good ++ p :: rest))%nat ->
     (2 <= List.length (good ++ p :: rest'))%nat ->
     validate_location_format fr ar
       (geometry "LineString" (JList (good ++ p :: rest)))
     = validate_location_format fr ar
         (geometry "LineString" (JList (good ++ p :: rest')))) /\
  (forall good l rest,
     Forall (pair_in (-90) 90) good -> List.length l <> 2%nat ->
     (2 <= List.length (good ++ JList l :: rest))%nat ->
     validate_location_format fr ar
       (geometry "LineString" (JList (good ++ JList l :: rest)))
     = Ret (false, "Each point in LineString must have exactly two elements (longitude, latitude).")) /\
  (forall good a b x y rest,
     Forall (pair_in (-90) 90) good ->
     num_of a = Some x -> num_of b = Some y ->
     ~ (in_interval (-180) 180 a /\ in_interval (-90) 90 b) ->
     (2 <= List.length (good ++ JList [a; b] :: rest))%nat ->
     validate_location_format fr ar
       (geometry "LineString" (JList (good ++ JList [a; b] :: rest)))
     = Ret (false, "Invalid point in LineString. Longitude must be in [-180, 180] and latitude in [-90, 90].")).
Proof.
  repeat match goal with |- _ /\ _ => split end.
  - intros c n Hn Hlt. rewrite validate_linestring, Hn. cbn [bind].
    apply Z.ltb_lt in Hlt. rewrite Hlt. reflexivity.
  - intros good p rest rest' HF Hp H1 H2.
    rewrite !validate_linestring_points by assumption.
    rewrite !linestring_points_scheme.
    rewrite !(points_loop_skip _ _ _ _ good _ HF).
    destruct (points_loop_stop _ _ len_message_linestring
                range_message_linestring p rest Hp) as [-> _].
    destruct (points_loop_stop _ _ len_message_linestring
                range_message_linestring p rest' Hp) as [-> _].
    reflexivity.
  - intros good l rest HF Hl Hlen.
    rewrite validate_linestring_points by assumption.
    rewrite linestring_points_scheme.
    rewrite (points_loop_skip _ _ _ _ good _ HF).
    rewrite (points_loop_wrong_length _ _ _ _ l rest Hl). reflexivity.
  - intros good a b x y rest HF Ha Hb Hout Hlen.
    rewrite validate_linestring_points by assumption.
    rewrite linestring_points_scheme.
    rewrite (points_loop_skip _ _ _ _ good _ HF).
    rewrite (points_loop_out_of_range _ _ _ _ a b x y rest Ha Hb Hout).
    reflexivity.
Qed.

(** X3.  A LineString of at least two points is valid exactly when each
    of its points is valid as the coordinates of a Point. *)
Theorem linestring_pointwise (points : list value) :
  (2 <= List.length points)%nat ->
  ((exists m, validate_location_format fr ar
                (geometry "LineString" (JList points)) = Ret (true, m)) <->
   Forall (fun p => exists m, validate_location_format fr ar
                                (geometry "Point" p) = Ret (true, m))
          points).
Proof.
  intros Hlen. split.
  - intros [m H]. rewrite (validate_linestring_points points Hlen) in H.
    apply points_then_valid in H.
    eapply Forall_impl; [|exact H]. intros p Hp. now apply validate_point_ok.
  - intros HF. exists "Location format is valid.".
    rewrite (validate_linestring_points points Hlen).
    rewrite linestring_points_scheme.
    rewrite (proj2 (points_loop_done _ _ _ _ points)); [reflexivity|].
    eapply Forall_impl; [|exact HF]. intros p Hp. now apply validate_point_ok.
Qed.

(** X4.  Valid LineString coordinates of at least four points whose first
    and last point are equal are a valid ring of a Polygon: the bounds of
    the Polygon branch include those of the LineString branch. *)
Theorem closed_linestring_is_ring (points : list value) (first last : value)
        (m : string) :
  validate_location_format fr ar (geometry "LineString" (JList points))
  = Ret (true, m) ->
  (4 <= List.length points)%nat ->
  nth_error points 0 = Some first ->
  nth_error points (List.length points - 1) = Some last ->
  py_eq first last = true ->
  validate_location_format fr ar (geometry "Polygon" (JList [JList points]))
  = Ret (true, "Location format is valid.").
Proof.
  intros H Hlen Na Nz Hq.
  rewrite validate_linestring_points in H by lia.
  apply points_then_valid in H.
  assert (HF : Forall (pair_in (-180) 180) points).
  { eapply Forall_impl; [|exact H]. intros p.
    apply pair_in_widen; lia. }
  rewrite validate_polygon_rings by discriminate.
  rewrite (polygon_rings_one_eval points first last Hlen Na Nz).
  unfold py_ne. rewrite Hq. cbn [negb].
  rewrite (proj2 (points_loop_done _ _ _ _ points) HF). reflexivity.
Qed.

(** A mapping location is read through its two keys only. *)
Lemma validate_location_dict (d : list (string * value)) :
  validate_location_format fr ar (JDict d) =
  match lookup "type" d, lookup "coordinates" d with
  | Some t, Some c =>
      validate_location_format fr ar (JDict [("type", t); ("coordinates", c)])
  | _, _ => Ret (false, "Missing 'type' or 'coordinates' in location.")
  end.
Proof.
  unfold validate_location_format. cbn [py_contains py_getitem bind].
  destruct (lookup "type" d) as [t|]; [|reflexivity].
  destruct (lookup "coordinates" d) as [c|]; reflexivity.
Qed.

(** The type of a location is unhashable, or one of the three kinds, or
    rejected by name, without a look at the coordinates. *)
Lemma location_type_cases (t c : value) :
  (~ hashable t /\
   validate_location_format fr ar (JDict [("type", t); ("coordinates", c)])
   = Raise TypeError) \/
  allowed_kind t \/
  (hashable t /\ ~ allowed_kind t /\
   validate_location_format fr ar (JDict [("type", t); ("coordinates", c)])
   = Ret (false, "Invalid type: " ++ py_str fr t
                 ++ ". Allowed types are: " ++ ar ++ ".")).
Proof.
  unfold allowed_kind.
  destruct t as [| b | z | f | s | l | d];
    try (right; right; split; [exact I|]; split;
         [intros [H|[H|H]]; discriminate | reflexivity]);
    try (left; split; [intros H; exact H | reflexivity]).
  destruct (String.eqb s "Point") eqn:E1;
    [apply String.eqb_eq in E1; subst; auto|].
  destruct (String.eqb s "Polygon") eqn:E2;
    [apply String.eqb_eq in E2; subst; auto|].
  destruct (String.eqb s "LineString") eqn:E3;
    [apply String.eqb_eq in E3; subst; auto|].
  right; right. split; [exact I|]. split.
  - apply String.eqb_neq in E1, E2, E3.
    intros [[= H]|[[= H]|[= H]]]; congruence.
  - unfold validate_location_format.
    cbn [py_contains py_getitem lookup String.eqb Ascii.eqb Bool.eqb
         negb bind in_allowed_types].
    rewrite E1, E2, E3. reflexivity.
Qed.

(** X5.  A mapping location is read through its [type] and [coordinates]
    entries only: two locations that agree on both get the same
    outcome, whatever other members (a [bbox], a [crs], ...) they have. *)
Theorem location_reads_two_keys (d1 d2 : list (string * value)) :
  lookup "type" d1 = lookup "type" d2 ->
  lookup "coordinates" d1 = lookup "coordinates" d2 ->
  validate_location_format fr ar (JDict d1)
  = validate_location_format fr ar (JDict d2).
Proof.
  intros Ht Hc. rewrite !validate_location_dict, Ht, Hc. reflexivity.
Qed.

(** X6.  The type is checked before the coordinates are looked at: a
    location whose type is hashable and not one of ["Point"], ["Polygon"],
    ["LineString"] (the comparison is exact, so ["point"] is rejected) gets
    the invalid-type verdict that names it, whatever its coordinates are;
    a type that is a list or a dict raises [TypeError]. *)
Theorem type_checked_first (d : list (string * value)) (t c : value) :
  lookup "type" d = Some t ->
  lookup "coordinates" d = Some c ->
  (hashable t -> ~ allowed_kind t ->
   validate_location_format fr ar (JDict d)
   = Ret (false, "Invalid type: " ++ py_str fr t
                 ++ ". Allowed types are: " ++ ar ++ ".")) /\
  (~ hashable t ->
   validate_location_format fr ar (JDict d) = Raise TypeError).
Proof.
  intros Ht Hc. rewrite validate_location_dict, Ht, Hc.
  destruct (location_type_cases t c) as [[Hn E] | [Ha | (Hh & Hn & E)]].
  - split; [intros Hh; contradiction | intros _; exact E].
  - split; [intros _ Hn; contradiction|].
    intros Hn. destruct Ha as [-> | [-> | ->]]; now contradiction Hn.
  - split; [intros _ _; exact E | intros H; contradiction].
Qed.

Ltac fixed_message :=
  right; split; [reflexivity|]; left;
  cbn [In location_failure_messages]; tauto.

Lemma geometry_verdict_cases (kind : string) (c : value) (b : bool)
      (m : string) :
  allowed_kind (JStr kind) ->
  validate_location_format fr ar (geometry kind c) = Ret (b, m) ->
  (b = true /\ m = "Location format is valid.") \/
  (b = false /\
   (In m location_failure_messages \/
    exists t, m = "Invalid type: " ++ py_str fr t
                  ++ ". Allowed types are: " ++ ar ++ ".")).
Proof.
  intros [[= ->] | [[= ->] | [= ->]]].
  - (* Point *)
    rewrite validate_point.
    destruct (py_len c) as [n|e]; cbn [bind]; [|discriminate].
    destruct (negb (n =? 2)); [intros [= <- <-]; fixed_message|].
    destruct (unpack2 c) as [[x y]|e]; cbn [bind]; [|discriminate].
    destruct (lon_lat_in _ _ _ _ x y) as [[|]|e]; cbn [bind negb];
      [| |discriminate].
    + intros [= <- <-]. now left.
    + intros [= <- <-]. fixed_message.
  - (* Polygon *)
    rewrite validate_polygon.
    destruct (py_len c) as [n|e]; cbn [bind]; [|discriminate].
    destruct (n <? 1); [intros [= <- <-]; fixed_message|].
    destruct (py_iter c) as [rings|e]; cbn [bind]; [|discriminate].
    destruct (polygon_rings rings) as [[v|]|e] eqn:P; cbn [bind];
      [| |discriminate].
    + apply polygon_rings_verdict in P.
      destruct P as [-> | [-> | [-> | ->]]]; intros [= <- <-]; fixed_message.
    + intros [= <- <-]. now left.
  - (* LineString *)
    rewrite validate_linestring.
    destruct (py_len c) as [n|e]; cbn [bind]; [|discriminate].
    destruct (n <? 2); [intros [= <- <-]; fixed_message|].
    destruct (py_iter c) as [points|e]; cbn [bind]; [|discriminate].
    rewrite linestring_points_scheme.
    destruct (points_loop _ _ _ _ points) as [[v|]|e] eqn:P; cbn [bind];
      [| |discriminate].
    + apply points_loop_verdict in P.
      destruct P as [-> | ->]; intros [= <- <-]; fixed_message.
    + intros [= <- <-]. now left.
Qed.

(** A location that is not a mapping: [in] is element membership in a
    list and the substring test in a str. *)
Lemma validate_location_list (items : list value) :
  validate_location_format fr ar (JList items) =
  if existsb (fun x => py_eq x (JStr "type")) items
     && existsb (fun x => py_eq x (JStr "coordinates")) items
  then Raise TypeError
  else Ret (false, "Missing 'type' or 'coordinates' in location.").
Proof.
  unfold validate_location_format. cbn [py_contains bind].
  destruct (existsb _ items); cbn [negb bind andb]; [|reflexivity].
  destruct (existsb _ items); reflexivity.
Qed.

Lemma validate_location_str (s : string) :
  validate_location_format fr ar (JStr s) =
  if substring_in "type" s && substring_in "coordinates" s
  then Raise TypeError
  else Ret (false, "Missing 'type' or 'coordinates' in location.").
Proof.
  unfold validate_location_format. cbn [py_contains bind].
  destruct (substring_in "type" s); cbn [negb bind andb]; [|reflexivity].
  destruct (substring_in "coordinates" s); reflexivity.
Qed.

Lemma location_verdict_cases (location : value) (b : bool) (m : string) :
  validate_location_format fr ar location = Ret (b, m) ->
  (b = true /\ m = "Location format is valid.") \/
  (b = false /\
   (In m location_failure_messages \/
    exists t, m = "Invalid type: " ++ py_str fr t
                  ++ ". Allowed types are: " ++ ar ++ ".")).
Proof.
  destruct location as [| b' | z | f | s | items | d]; try discriminate.
  - rewrite validate_location_str.
    destruct (_ && _); [discriminate|]. intros [= <- <-]. fixed_message.
  - rewrite validate_location_list.
    destruct (_ && _); [discriminate|]. intros [= <- <-]. fixed_message.
  - rewrite validate_location_dict.
    destruct (lookup "type" d) as [t|]; [|intros [= <- <-]; fixed_message].
    destruct (lookup "coordinates" d) as [c|];
      [|intros [= <- <-]; fixed_message].
    destruct (location_type_cases t c) as [[_ E] | [Ha | (_ & _ & E)]].
    + rewrite E. discriminate.
    + assert (exists kind, t = JStr kind) as [kind ->]
        by (destruct Ha as [-> | [-> | ->]]; eauto).
      exact (geometry_verdict_cases kind c b m Ha).
    + rewrite E. intros [= <- <-]. right. split; [reflexivity|].
      right. now exists t.
Qed.

(** X7.  The flag and the message of a location verdict go together: the
    verdict is valid exactly when its message is ["Location format is
    valid."], and a failure carries one of the eleven fixed messages or
    the invalid-type message built from the offending type. *)
Theorem location_verdict_message (location : value) (b : bool) (m : string) :
  validate_location_format fr ar location = Ret (b, m) ->
  (b = true <-> m = "Location format is valid.") /\
  (b = false ->
   In m location_failure_messages \/
   exists t, m = "Invalid type: " ++ py_str fr t
                 ++ ". Allowed types are: " ++ ar ++ ".").
Proof.
  intros H. apply location_verdict_cases in H.
  destruct H as [[-> ->] | [-> H]].
  - split; [tauto | discriminate].
  - split; [|intros _; exact H]. split; [discriminate|]. intros ->.
    destruct H as [H | [t H]].
    + cbn [In location_failure_messages] in H.
      repeat (destruct H as [H | H]; [discriminate|]). contradiction.
    + discriminate.
Qed.

(** X8.  A location that is not a mapping never validates and never gets
    a geometry looked at: null, a boolean or a number raises [TypeError];
    a list raises [TypeError] when both ["type"] and ["coordinates"] are
    among its elements and gets the missing-keys verdict otherwise; a str
    does the same with "is a substring" for "is an element". *)
Theorem location_not_a_mapping :
  validate_location_format fr ar JNull = Raise TypeError /\
  (forall b, validate_location_format fr ar (JBool b) = Raise TypeError) /\
  (forall z, validate_location_format fr ar (JInt z) = Raise TypeError) /\
  (forall f, validate_location_format fr ar (JFloat f) = Raise TypeError) /\
  (forall items,
     (In (JStr "type") items /\ In (JStr "coordinates") items ->
      validate_location_format fr ar (JList items) = Raise TypeError) /\
     (~ (In (JStr "type") items /\ In (JStr "coordinates") items) ->
      validate_location_format fr ar (JList items)
      = Ret (false, "Missing 'type' or 'coordinates' in location."))) /\
  (forall s,
     ((exists u v, s = u ++ "type" ++ v) /\
      (exists u v, s = u ++ "coordinates" ++ v) ->
      validate_location_format fr ar (JStr s) = Raise TypeError) /\
     (~ ((exists u v, s = u ++ "type" ++ v) /\
         (exists u v, s = u ++ "coordinates" ++ v)) ->
      validate_location_format fr ar (JStr s)
      = Ret (false, "Missing 'type' or 'coordinates' in location."))).
Proof.
  repeat match goal with |- _ /\ _ => split end; try reflexivity.
  - intros items. rewrite validate_location_list. split.
    + intros [H1 H2].
      apply contains_str_in in H1, H2. rewrite H1, H2. reflexivity.
    + intros H.
      destruct (existsb _ items && existsb _ items) eqn:E; [|reflexivity].
      apply andb_true_iff in E. rewrite !contains_str_in in E.
      contradiction.
  - intros s. rewrite validate_location_str. split.
    + intros [H1 H2].
      apply substring_in_app in H1, H2. rewrite H1, H2. reflexivity.
    + intros H.
      destruct (substring_in "type" s && substring_in "coordinates" s) eqn:E;
        [|reflexivity].
      apply andb_true_iff in E. rewrite !substring_in_app in E.
      contradiction.
Qed.

(** The location check on a root that is not a mapping. *)
Lemma check_location_list (items : list value) :
  check_location_in_json fr ar (JList items) =
  if existsb (fun x => py_eq x (JStr "location")) items
  then Raise TypeError
  else Ret (false, "The 'location' attribute is missing.").
Proof.
  unfold check_location_in_json. cbn [py_contains bind].
  destruct (existsb _ items); reflexivity.
Qed.

Lemma check_location_str (s : string) :
  check_location_in_json fr ar (JStr s) =
  if substring_in "location" s
  then Raise TypeError
  else Ret (false, "The 'location' attribute is missing.").
Proof.
  unfold check_location_in_json. cbn [py_contains bind].
  destruct (substring_in "location" s); reflexivity.
Qed.

(** X9.  A root document that is not a mapping never validates: null, a
    boolean or a number raises [TypeError]; a list raises [TypeError]
    when ["location"] is one of its elements and is answered "location
    is missing" otherwise; a str likewise, with "is a substring". *)
Theorem document_not_a_mapping :
  validate_json_data fr ar JNull = Raise TypeError /\
  (forall b, validate_json_data fr ar (JBool b) = Raise TypeError) /\
  (forall z, validate_json_data fr ar (JInt z) = Raise TypeError) /\
  (forall f, validate_json_data fr ar (JFloat f) = Raise TypeError) /\
  (forall items,
     (In (JStr "location") items ->
      validate_json_data fr ar (JList items) = Raise TypeError) /\
     (~ In (JStr "location") items ->
      validate_json_data fr ar (JList items)
      = Ret (false, "The 'location' attribute is missing."))) /\
  (forall s,
     ((exists u v, s = u ++ "location" ++ v) ->
      validate_json_data fr ar (JStr s) = Raise TypeError) /\
     (~ (exists u v, s = u ++ "location" ++ v) ->
      validate_json_data fr ar (JStr s)
      = Ret (false, "The 'location' attribute is missing."))).
Proof.
  repeat match goal with |- _ /\ _ => split end; try reflexivity.
  - intros items.
    rewrite validate_json_data_cases, check_location_list. split.
    + intros H. apply contains_str_in in H. rewrite H. reflexivity.
    + intros H. destruct (existsb _ items) eqn:E; [|reflexivity].
      apply contains_str_in in E. contradiction.
  - intros s.
    rewrite validate_json_data_cases, check_location_str. split.
    + intros H. apply substring_in_app in H. rewrite H. reflexivity.
    + intros H. destruct (substring_in "location" s) eqn:E; [|reflexivity].
      apply substring_in_app in E. contradiction.
Qed.

Lemma validate_context_ok (context : value) :
  (exists m, validate_context_format context = Ret (true, m)) <->
  exists t rest, context = JList (JStr (expected_prefix ++ t) :: rest).
Proof.
  split.
  - intros [m H].
    destruct context as [| | | | | [|x rest] |]; try discriminate.
    rewrite validate_context_cons in H.
    destruct x as [| | | | s | |]; try discriminate.
    cbn [py_startswith bind] in H.
    destruct (is_prefix expected_prefix s) eqn:E; [|discriminate].
    apply is_prefix_app in E. destruct E as [t ->]. now exists t, rest.
  - intros (t & rest & ->). exists "Context format is valid.".
    rewrite validate_context_cons. cbn [py_startswith bind].
    rewrite (proj2 (is_prefix_app expected_prefix (expected_prefix ++ t)))
      by now exists t.
    reflexivity.
Qed.

(** X10.  [validate_json_data] answers valid exactly for a mapping that
    has a [location] that validates and an [@context] that is a list
    whose first element is a string with the expected prefix; its message
    is then ["Data model is valid."]. *)
Theorem document_valid_iff (json : value) (m : string) :
  validate_json_data fr ar json = Ret (true, m) <->
  m = "Data model is valid." /\
  exists d location t rest,
    json = JDict d /\
    lookup "location" d = Some location /\
    (exists m', validate_location_format fr ar location = Ret (true, m')) /\
    lookup "@context" d = Some (JList (JStr (expected_prefix ++ t) :: rest)).
Proof.
  rewrite validate_json_data_cases. split.
  - intros H.
    destruct json as [| b | z | f | s | items | d]; try discriminate.
    + rewrite check_location_str in H.
      destruct (substring_in "location" s); discriminate.
    + rewrite check_location_list in H.
      destruct (existsb _ items); discriminate.
    + rewrite check_location_dict, check_context_dict in H.
      destruct (lookup "location" d) as [location|] eqn:Hl; [|discriminate].
      destruct (validate_location_format fr ar location)
        as [[[|] m1]|e] eqn:E1; try discriminate.
      destruct (lookup "@context" d) as [context|] eqn:Hc; [|discriminate].
      destruct (validate_context_format context) as [[[|] m2]|e] eqn:E2;
        try discriminate.
      injection H as <-. split; [reflexivity|].
      destruct (proj1 (validate_context_ok context)) as (t & rest & ->);
        [eauto|].
      exists d, location, t, rest. eauto.
  - intros (-> & d & location & t & rest & -> & Hl & [m' Hv] & Hc).
    rewrite check_location_dict, Hl, Hv, check_context_dict, Hc.
    destruct (proj2 (validate_context_ok
                (JList (JStr (expected_prefix ++ t) :: rest)))) as [m2 ->];
      [eauto|].
    reflexivity.
Qed.

Lemma context_raises_cases (context : value) (e : exn) :
  validate_context_format context = Raise e ->
  exists x rest, context = JList (x :: rest) /\ forall s, x <> JStr s.
Proof.
  intros H.
  destruct context as [| | | | | [|x rest] |]; try discriminate.
  rewrite validate_context_cons in H.
  destruct x as [| | | | s | |];
    try (eexists _, rest; split; [reflexivity | discriminate]).
  cbn [py_startswith bind] in H.
  destruct (is_prefix expected_prefix s); discriminate.
Qed.

(** X11.  [validate_context_format] raises exactly when its argument is a
    non-empty list whose first element is not a string, and the exception
    is then [AttributeError]; in every other case it returns a verdict. *)
Theorem context_raises_iff (context : value) (e : exn) :
  validate_context_format context = Raise e <->
  e = AttributeError /\
  exists x rest, context = JList (x :: rest) /\ forall s, x <> JStr s.
Proof.
  split.
  - intros H.
    destruct context as [| | | | | [|x rest] |]; try discriminate.
    rewrite validate_context_cons in H.
    destruct x as [| | | | s | |];
      try (injection H as <-; split; [reflexivity|];
           eexists _, rest; split; [reflexivity | discriminate]).
    cbn [py_startswith bind] in H.
    destruct (is_prefix expected_prefix s); discriminate.
  - intros (-> & x & rest & -> & Hx). rewrite validate_context_cons.
    destruct x as [| | | | s | |]; try reflexivity.
    now contradiction (Hx s).
Qed.

(** X12.  The loop of [validate_json_data] composes: over a list of checks
    followed by another, it is the loop over the first list, and, only
    when every check of it passes, the loop over the second.  Whatever is
    appended after a check that fails or raises is never run. *)
Theorem run_validation_app (fs gs : list (value -> result verdict))
        (json : value) :
  run_validation (fs ++ gs) json =
  match run_validation fs json with
  | Ret (true, _) => run_validation gs json
  | stopped => stopped
  end.
Proof.
  induction fs as [|f fs IH]; [reflexivity|].
  cbn [app run_validation].
  destruct (f json) as [[[|] m]|e]; cbn [bind negb]; [exact IH | |];
    reflexivity.
Qed.

(** X13.  For the two coordinates of a Point, evaluation goes left to
    right and stops early: a longitude that is a number outside
    [[-180, 180]] (or NaN) gives the range failure whatever the latitude is,
    even if it is not a number; a longitude that is not a number raises
    [TypeError]; and a latitude that is not a number raises [TypeError] once
    the longitude is in range. *)
Theorem point_evaluation_order (a b : value) :
  (is_number a -> ~ in_interval (-180) 180 a ->
   validate_location_format fr ar (geometry "Point" (JList [a; b]))
   = Ret (false, "Invalid coordinates for 'Point'. Longitude must be in [-180, 180] and latitude in [-90, 90].")) /\
  (~ is_number a ->
   validate_location_format fr ar (geometry "Point" (JList [a; b]))
   = Raise TypeError) /\
  (in_interval (-180) 180 a -> ~ is_number b ->
   validate_location_format fr ar (geometry "Point" (JList [a; b]))
   = Raise TypeError).
Proof.
  rewrite validate_point. cbn [py_len List.length bind Z.of_nat].
  cbn [negb unpack2 py_iter bind]. unfold lon_lat_in, is_number.
  repeat match goal with |- _ /\ _ => split end.
  - intros Hn Hout. destruct (num_of a) as [x|] eqn:Ha; [|congruence].
    destruct (chained_le_number (-180) 180 a x Ha) as [[|] E]; rewrite E.
    + apply chained_le_true in E. contradiction.
    + reflexivity.
  - intros Hn. destruct (num_of a) as [x|] eqn:Ha.
    + contradiction Hn. discriminate.
    + unfold chained_le, int_le_value. rewrite Ha. reflexivity.
  - intros Ha Hn. rewrite (proj2 (chained_le_true (-180) 180 a) Ha).
    cbn [bind]. destruct (num_of b) as [y|] eqn:Hb.
    + contradiction Hn. discriminate.
    + unfold chained_le, int_le_value. rewrite Hb. reflexivity.
Qed.

Lemma well_shaped_returns (kind : string) (c : value) :
  well_shaped kind c ->
  exists v, validate_location_format fr ar (geometry kind c) = Ret v.
Proof.
  intros [[-> (l & -> & Hl)] | [[-> (l & -> & Hl)] | [-> (l & -> & Hl)]]].
  - rewrite validate_point. cbn [py_len bind]. rewrite list_len_is_2.
    destruct l as [|a [|b [|c l]]]; cbn [negb]; eauto.
    cbn [unpack2 py_iter bind].
    inversion Hl as [|? ? Ha Hl']; subst.
    inversion Hl' as [|? ? Hb _]; subst.
    unfold is_number in Ha, Hb.
    destruct (num_of a) as [x|] eqn:Ea; [|congruence].
    destruct (num_of b) as [y|] eqn:Eb; [|congruence].
    destruct (lon_lat_in_numbers (-90) 90 a b x y Ea Eb) as [[|] ->];
      cbn [bind negb]; eauto.
  - rewrite validate_linestring. cbn [py_len bind].
    destruct (_ <? 2); [eauto|]. cbn [py_iter bind].
    rewrite linestring_points_scheme.
    destruct (points_loop_returns (-90) 90 len_message_linestring
                range_message_linestring l Hl) as [[v|] ->];
      cbn [bind or_location_valid]; eauto.
  - rewrite validate_polygon. cbn [py_len bind].
    destruct (_ <? 1); [eauto|]. cbn [py_iter bind].
    destruct (polygon_rings_returns l Hl) as [[v|] ->];
      cbn [bind or_location_valid]; eauto.
Qed.

Lemma location_returns_verdict (location : value) :
  well_shaped_location location ->
  exists v, validate_location_format fr ar location = Ret v.
Proof.
  intros (d & -> & Hh & Hs). rewrite validate_location_dict.
  destruct (lookup "type" d) as [t|] eqn:Ht; [|eauto].
  destruct (lookup "coordinates" d) as [c|] eqn:Hc; [|eauto].
  destruct (location_type_cases t c) as [[Hn _] | [Ha | (_ & _ & ->)]].
  - contradiction Hn. now apply Hh.
  - assert (exists kind, t = JStr kind) as [kind ->]
      by (destruct Ha as [-> | [-> | ->]]; eauto).
    apply well_shaped_returns. now apply Hs.
  - eauto.
Qed.

(** X14.  No exception on the expected structure: when the location is a
    mapping whose type is hashable and whose coordinates, for a type among
    the three kinds, are nested lists of numbers to the depth of that
    kind, [validate_location_format] returns a verdict, for any lengths
    and any values of the numbers. *)
Theorem well_shaped_location_returns (location : value) :
  well_shaped_location location ->
  exists v, validate_location_format fr ar location = Ret v.
Proof. exact (location_returns_verdict location). Qed.

Lemma document_returns_verdict (d : list (string * value)) :
  (forall location, lookup "location" d = Some location ->
                    well_shaped_location location) ->
  (forall context, lookup "@context" d = Some context ->
                   well_shaped_context context) ->
  exists v, validate_json_data fr ar (JDict d) = Ret v.
Proof.
  intros Hl Hc.
  rewrite validate_json_data_cases, check_location_dict, check_context_dict.
  destruct (lookup "location" d) as [location|]; [|eauto].
  destruct (location_returns_verdict location (Hl _ eq_refl))
    as [[[|] m] ->]; [|eauto].
  destruct (lookup "@context" d) as [context|]; [|eauto].
  specialize (Hc _ eq_refl).
  destruct (validate_context_format context) as [[[|] m2]|e] eqn:E; eauto.
  apply context_raises_cases in E.
  destruct E as (x & rest & -> & Hx).
  destruct (Hc x rest eq_refl) as [s ->]. now contradiction (Hx s).
Qed.

(** X15.  No exception on the expected structure, for a whole document: a
    mapping whose [location], if present, has the expected structure and
    whose [@context], if present, is not a list that starts with a
    non-string always gets a verdict from [validate_json_data]. *)
Theorem well_shaped_document_returns (d : list (string * value)) :
  (forall location, lookup "location" d = Some location ->
                    well_shaped_location location) ->
  (forall context, lookup "@context" d = Some context ->
                   well_shaped_context context) ->
  exists v, validate_json_data fr ar (JDict d) = Ret v.
Proof. exact (document_returns_verdict d). Qed.

Lemma check_context_verdict (json : value) (b : bool) (m : string) :
  check_context_in_json json = Ret (b, m) ->
  (b = true /\ m = "Context format is valid.") \/
  (b = false /\ In m field_failure_messages).
Proof.
  assert (V : forall context,
             validate_context_format context = Ret (b, m) ->
             (b = true /\ m = "Context format is valid.") \/
             (b = false /\ In m field_failure_messages)).
  { intros context.
    destruct context as [| | | | | [|x rest] |];
      try (intros [= <- <-]; right; split; [reflexivity | cbn; tauto]).
    rewrite validate_context_cons.
    destruct (py_startswith x expected_prefix) as [[|]|e]; cbn [bind negb];
      [| |discriminate]; intros [= <- <-].
    - now left.
    - right. split; [reflexivity | cbn; tauto]. }
  destruct json as [| b' | z | f | s | items | d]; try discriminate.
  - unfold check_context_in_json. cbn [py_contains bind].
    destruct (substring_in "@context" s); cbn [negb bind];
      [discriminate|].
    intros [= <- <-]. right. split; [reflexivity | cbn; tauto].
  - unfold check_context_in_json. cbn [py_contains bind].
    destruct (existsb _ items); cbn [negb bind]; [discriminate|].
    intros [= <- <-]. right. split; [reflexivity | cbn; tauto].
  - rewrite check_context_dict.
    destruct (lookup "@context" d) as [context|]; [apply V|].
    intros [= <- <-]. right. split; [reflexivity | cbn; tauto].
Qed.

Lemma check_location_verdict (json : value) (m : string) :
  check_location_in_json fr ar json = Ret (false, m) ->
  In m field_failure_messages \/ In m location_failure_messages \/
  exists t, m = "Invalid type: " ++ py_str fr t
                ++ ". Allowed types are: " ++ ar ++ ".".
Proof.
  destruct json as [| b' | z | f | s | items | d]; try discriminate.
  - rewrite check_location_str.
    destruct (substring_in "location" s); [discriminate|].
    intros [= <-]. left. cbn. tauto.
  - rewrite check_location_list.
    destruct (existsb _ items); [discriminate|].
    intros [= <-]. left. cbn. tauto.
  - rewrite check_location_dict.
    destruct (lookup "location" d) as [location|];
      [|intros [= <-]; left; cbn; tauto].
    intros H. apply location_verdict_cases in H.
    destruct H as [[[=] _] | [_ H]]. right. exact H.
Qed.

(** X22.  The flag and the message of a document verdict go together:
    [validate_json_data] answers valid exactly when its message is
    ["Data model is valid."], and a failure carries the message of the
    field check that failed: one of the fixed messages of the two checks
    and of the two validators, or the invalid-type message. *)
Theorem document_verdict_message (json : value) (b : bool) (m : string) :
  validate_json_data fr ar json = Ret (b, m) ->
  (b = true <-> m = "Data model is valid.") /\
  (b = false ->
   In m field_failure_messages \/ In m location_failure_messages \/
   exists t, m = "Invalid type: " ++ py_str fr t
                 ++ ". Allowed types are: " ++ ar ++ ".").
Proof.
  rewrite validate_json_data_cases. intros H.
  assert (C : (b = true /\ m = "Data model is valid.") \/
              (b = false /\
               (In m field_failure_messages \/
                In m location_failure_messages \/
                exists t, m = "Invalid type: " ++ py_str fr t
                              ++ ". Allowed types are: " ++ ar ++ "."))).
  { destruct (check_location_in_json fr ar json) as [[[|] m1]|e] eqn:E1;
      [| |discriminate].
    - destruct (check_context_in_json json) as [[[|] m2]|e] eqn:E2;
        [| |discriminate]; injection H as <- <-.
      + now left.
      + right. split; [reflexivity|]. left.
        apply check_context_verdict in E2.
        destruct E2 as [[[=] _] | [_ E2]]. exact E2.
    - injection H as <- <-. right. split; [reflexivity|].
      exact (check_location_verdict json m1 E1). }
  destruct C as [[-> ->] | [-> C]].
  - split; [tauto | discriminate].
  - split; [|intros _; exact C]. split; [discriminate|]. intros ->.
    destruct C as [C | [C | [t C]]].
    + cbn [In field_failure_messages] in C.
      repeat (destruct C as [C | C]; [discriminate|]). contradiction.
    + cbn [In location_failure_messages] in C.
      repeat (destruct C as [C | C]; [discriminate|]). contradiction.
    + discriminate.
Qed.

(** *** The two routes *)

(** X16.  [upload_file] answers 200 exactly when the request has a field
    [file] with a non-empty file name whose content loads to a document
    that [validate_json_data] finds valid; the body is then the message
    ["Data model is valid."].  A file without a name is never validated. *)
Theorem upload_200_iff (files : list (string * file_storage))
        (body : json_body) :
  upload_file fr ar files = Responds body 200 <->
  body = JsonMessage "Data model is valid." /\
  exists file json m,
    get_file "file" files = Some file /\ filename file <> "" /\
    content file = Loaded json /\
    validate_json_data fr ar json = Ret (true, m).
Proof.
  unfold upload_file. split.
  - destruct (get_file "file" files) as [file|]; [|discriminate].
    destruct (String.eqb (filename file) "") eqn:E; [discriminate|].
    apply String.eqb_neq in E.
    destruct (content file) as [json| |name] eqn:C; try discriminate.
    destruct (validate_json_data fr ar json) as [[[|] m]|e] eqn:V;
      try discriminate.
    intros [= <-]. split; [reflexivity|]. exists file, json, m. auto.
  - intros (-> & file & json & m & -> & Hn & -> & ->).
    apply String.eqb_neq in Hn. rewrite Hn. reflexivity.
Qed.

(** X17.  [validate_api] answers 200 exactly when the body of the request
    loads to a document that [validate_json_data] finds valid, with the
    message ["Data model is valid."]. *)
Theorem api_200_iff (get_json : load_outcome) (body : json_body) :
  validate_api fr ar get_json = Responds body 200 <->
  body = JsonMessage "Data model is valid." /\
  exists json m, get_json = Loaded json /\
                 validate_json_data fr ar json = Ret (true, m).
Proof.
  unfold validate_api. split.
  - destruct get_json as [json| |name]; try discriminate.
    destruct (is_none json); [discriminate|].
    destruct (validate_json_data fr ar json) as [[[|] m]|e] eqn:V;
      try discriminate.
    intros [= <-]. split; [reflexivity|]. now exists json, m.
  - intros (-> & json & m & -> & V).
    destruct json; try (rewrite V; reflexivity).
    discriminate.
Qed.

(** X18.  The two routes treat a loaded document alike, except null: for
    a named file and a request body that load to the same document, not
    null, they give the same result; on null the API route answers 400
    ["No JSON provided"] where the upload route lets the [TypeError] of the
    validators through. *)
Theorem routes_agree (files : list (string * file_storage))
        (file : file_storage) (json : value) :
  get_file "file" files = Some file ->
  filename file <> "" ->
  content file = Loaded json ->
  (json <> JNull ->
   upload_file fr ar files = validate_api fr ar (Loaded json)) /\
  (json = JNull ->
   upload_file fr ar files = CoreRaises TypeError /\
   validate_api fr ar (Loaded json)
   = Responds (JsonError "No JSON provided") 400).
Proof.
  intros Hf Hn Hc. unfold upload_file, validate_api.
  rewrite Hf, Hc. apply String.eqb_neq in Hn. rewrite Hn. split.
  - intros Hj. destruct json; try reflexivity. now contradiction Hj.
  - intros ->. split; reflexivity.
Qed.

(** X19.  Every response of a route is either 200 with the message
    ["Data model is valid."], or 400 with an error: one of the fixed errors
    of the route, or ["Validation failed: "] followed by the message of a
    failure verdict of [validate_json_data] on the loaded document. *)
Theorem route_responses :
  (forall files body status,
     upload_file fr ar files = Responds body status ->
     (status = 200 /\ body = JsonMessage "Data model is valid.") \/
     (status = 400 /\
      (In body [JsonError "No file provided"; JsonError "No file selected";
                JsonError "Invalid JSON file."] \/
       exists file json m,
         get_file "file" files = Some file /\ content file = Loaded json /\
         validate_json_data fr ar json = Ret (false, m) /\
         body = JsonError ("Validation failed: " ++ m)))) /\
  (forall get_json body status,
     validate_api fr ar get_json = Responds body status ->
     (status = 200 /\ body = JsonMessage "Data model is valid.") \/
     (status = 400 /\
      (In body [JsonError "No JSON provided"; JsonError "Invalid JSON data."] \/
       exists json m,
         get_json = Loaded json /\
         validate_json_data fr ar json = Ret (false, m) /\
         body = JsonError ("Validation failed: " ++ m)))).
Proof.
  split.
  - intros files body status. unfold upload_file.
    destruct (get_file "file" files) as [file|];
      [|intros [= <- <-]; right; split; [reflexivity|]; left; cbn; tauto].
    destruct (String.eqb (filename file) "");
      [intros [= <- <-]; right; split; [reflexivity|]; left; cbn; tauto|].
    destruct (content file) as [json| |name] eqn:C;
      [| intros [= <- <-]; right; split; [reflexivity|]; left; cbn; tauto
       | discriminate].
    destruct (validate_json_data fr ar json) as [[[|] m]|e] eqn:V;
      [| |discriminate]; intros [= <- <-].
    + now left.
    + right. split; [reflexivity|]. right. now exists file, json, m.
  - intros get_json body status. unfold validate_api.
    destruct get_json as [json| |name];
      [| intros [= <- <-]; right; split; [reflexivity|]; left; cbn; tauto
       | discriminate].
    destruct (is_none json);
      [intros [= <- <-]; right; split; [reflexivity|]; left; cbn; tauto|].
    destruct (validate_json_data fr ar json) as [[[|] m]|e] eqn:V;
      [| |discriminate]; intros [= <- <-].
    + now left.
    + right. split; [reflexivity|]. right. now exists json, m.
Qed.

(** X20.  A route lets an exception of the validators through exactly
    when [validate_json_data] raises it on the loaded document: nothing is
    caught but [JSONDecodeError], and nothing is raised by the route
    itself. *)
Theorem route_raises_iff :
  (forall files e,
     upload_file fr ar files = CoreRaises e <->
     exists file json,
       get_file "file" files = Some file /\ filename file <> "" /\
       content file = Loaded json /\
       validate_json_data fr ar json = Raise e) /\
  (forall get_json e,
     validate_api fr ar get_json = CoreRaises e <->
     exists json, get_json = Loaded json /\ json <> JNull /\
                  validate_json_data fr ar json = Raise e).
Proof.
  split.
  - intros files e. unfold upload_file. split.
    + destruct (get_file "file" files) as [file|]; [|discriminate].
      destruct (String.eqb (filename file) "") eqn:E; [discriminate|].
      apply String.eqb_neq in E.
      destruct (content file) as [json| |name] eqn:C; try discriminate.
      destruct (validate_json_data fr ar json) as [[[|] m]|e'] eqn:V;
        try discriminate.
      intros [= <-]. exists file, json. auto.
    + intros (file & json & -> & Hn & -> & ->).
      apply String.eqb_neq in Hn. rewrite Hn. reflexivity.
  - intros get_json e. unfold validate_api. split.
    + destruct get_json as [json| |name]; try discriminate.
      destruct json; cbn [is_none]; try discriminate;
        (destruct (validate_json_data fr ar _) as [[[|] m]|e'] eqn:V;
         try discriminate; intros [= <-]; eexists; repeat split;
         [discriminate | exact V]).
    + intros (json & -> & Hj & V).
      destruct json; cbn [is_none]; try (rewrite V; reflexivity).
      now contradiction Hj.
Qed.

(** X21.  On a document of the expected structure both routes answer:
    for a named file, or a request body, that loads to a mapping whose
    [location] and [@context], if present, have the expected structure,
    the result is a response with status 200 or 400, never an
    exception. *)
Theorem routes_answer_well_shaped (d : list (string * value))
        (files : list (string * file_storage)) (file : file_storage) :
  (forall location, lookup "location" d = Some location ->
                    well_shaped_location location) ->
  (forall context, lookup "@context" d = Some context ->
                   well_shaped_context context) ->
  get_file "file" files = Some file ->
  filename file <> "" ->
  content file = Loaded (JDict d) ->
  exists body status,
    (status = 200 \/ status = 400) /\
    upload_file fr ar files = Responds body status /\
    validate_api fr ar (Loaded (JDict d)) = Responds body status.
Proof.
  intros Hl Hc Hf Hn Hd. unfold upload_file, validate_api.
  rewrite Hf, Hd. apply String.eqb_neq in Hn. rewrite Hn. cbn [is_none].
  destruct (document_returns_verdict d Hl Hc) as [[[|] m] ->];
    eexists _, _; (split; [|split; reflexivity]); auto.
Qed.

End Coverage.

(** *** The further properties on concrete documents *)

Lemma origin_in_range : pair_in (-90) 90 origin.
Proof.
  exists (JInt 0), (JInt 0). split; [reflexivity|].
  split; exists 0%Q; (split; [reflexivity | split; discriminate]).
Qed.

Lemma valid_point_well_shaped : well_shaped_location valid_point.
Proof.
  exists [("type", JStr "Point"); ("coordinates", JList [JInt 10; JInt 20])].
  split; [reflexivity|]. split.
  - intros t [= <-]. exact I.
  - intros kind c [= <-] [= <-] _. left. split; [reflexivity|].
    exists [JInt 10; JInt 20]. split; [reflexivity|].
    repeat constructor; discriminate.
Qed.

Lemma valid_document_location_shape (location : value) :
  lookup "location" valid_document = Some location ->
  well_shaped_location location.
Proof. intros [= <-]. exact valid_point_well_shaped. Qed.

Lemma valid_document_context_shape (context : value) :
  lookup "@context" valid_document = Some context ->
  well_shaped_context context.
Proof. intros [= <-] x rest [= <- <-]. eauto. Qed.

Lemma linestring_first_violation_witness :
  Forall (pair_in (-90) 90) [origin] /\
  List.length [JInt 1] <> 2%nat /\
  (2 <= List.length ([origin] ++ JList [JInt 1] :: []))%nat /\
  validate_location_format shown_float shown_allowed_types
    (geometry "LineString" (JList ([origin] ++ JList [JInt 1] :: [])))
  = Ret (false, "Each point in LineString must have exactly two elements (longitude, latitude).").
Proof.
  assert (H1 : Forall (pair_in (-90) 90) [origin])
    by (constructor; [exact origin_in_range | constructor]).
  assert (H2 : List.length [JInt 1] <> 2%nat) by discriminate.
  assert (H3 : (2 <= List.length ([origin] ++ JList [JInt 1] :: []))%nat)
    by (cbn [app List.length]; lia).
  split; [exact H1|]. split; [exact H2|]. split; [exact H3|].
  exact (proj1 (proj2 (proj2 (linestring_first_violation
                                shown_float shown_allowed_types)))
           [origin] [JInt 1] [] H1 H2 H3).
Defined.

Lemma linestring_pointwise_witness :
  (2 <= List.length [origin; origin])%nat /\
  ((exists m, validate_location_format shown_float shown_allowed_types
                (geometry "LineString" (JList [origin; origin]))
              = Ret (true, m)) <->
   Forall (fun p => exists m,
               validate_location_format shown_float shown_allowed_types
                 (geometry "Point" p) = Ret (true, m))
          [origin; origin]).
Proof.
  assert (H : (2 <= List.length [origin; origin])%nat)
    by (cbn [List.length]; lia).
  split; [exact H|].
  exact (linestring_pointwise shown_float shown_allowed_types
           [origin; origin] H).
Defined.

Lemma closed_linestring_is_ring_witness :
  validate_location_format shown_float shown_allowed_types
    (geometry "LineString" (JList square))
  = Ret (true, "Location format is valid.") /\
  (4 <= List.length square)%nat /\
  nth_error square 0 = Some origin /\
  nth_error square (List.length square - 1) = Some origin /\
  py_eq origin origin = true /\
  validate_location_format shown_float shown_allowed_types
    (geometry "Polygon" (JList [JList square]))
  = Ret (true, "Location format is valid.").
Proof.
  assert (H : (4 <= List.length square)%nat) by (cbn [List.length square]; lia).
  split; [reflexivity|]. split; [exact H|]. split; [reflexivity|].
  split; [reflexivity|]. split; [reflexivity|].
  exact (closed_linestring_is_ring shown_float shown_allowed_types
           square origin origin "Location format is valid."
           eq_refl H eq_refl eq_refl eq_refl).
Defined.

Lemma location_reads_two_keys_witness :
  lookup "type" [("bbox", JList []); ("type", JStr "Point");
                 ("coordinates", JList [JInt 10; JInt 20])]
  = lookup "type" [("type", JStr "Point");
                   ("coordinates", JList [JInt 10; JInt 20])] /\
  lookup "coordinates" [("bbox", JList []); ("type", JStr "Point");
                        ("coordinates", JList [JInt 10; JInt 20])]
  = lookup "coordinates" [("type", JStr "Point");
                          ("coordinates", JList [JInt 10; JInt 20])] /\
  validate_location_format shown_float shown_allowed_types
    (JDict [("bbox", JList []); ("type", JStr "Point");
            ("coordinates", JList [JInt 10; JInt 20])])
  = validate_location_format shown_float shown_allowed_types
      (JDict [("type", JStr "Point");
              ("coordinates", JList [JInt 10; JInt 20])]).
Proof.
  split; [reflexivity|]. split; [reflexivity|].
  exact (location_reads_two_keys shown_float shown_allowed_types _ _
           eq_refl eq_refl).
Defined.

Lemma type_checked_first_witness :
  lookup "type" [("type", JStr "point"); ("coordinates", JInt 5)]
  = Some (JStr "point") /\
  lookup "coordinates" [("type", JStr "point"); ("coordinates", JInt 5)]
  = Some (JInt 5) /\
  hashable (JStr "point") /\ ~ allowed_kind (JStr "point") /\
  validate_location_format shown_float shown_allowed_types
    (JDict [("type", JStr "point"); ("coordinates", JInt 5)])
  = Ret (false, "Invalid type: point. Allowed types are: {'Point', 'Polygon', 'LineString'}.").
Proof.
  assert (H : ~ allowed_kind (JStr "point"))
    by (intros [H | [H | H]]; discriminate).
  split; [reflexivity|]. split; [reflexivity|]. split; [exact I|].
  split; [exact H|].
  exact (proj1 (type_checked_first shown_float shown_allowed_types
                  [("type", JStr "point"); ("coordinates", JInt 5)]
                  (JStr "point") (JInt 5) eq_refl eq_refl) I H).
Defined.

Lemma location_verdict_message_witness :
  validate_location_format shown_float shown_allowed_types
    (geometry "Point" (JList [JInt 200; JInt 10]))
  = Ret (false, "Invalid coordinates for 'Point'. Longitude must be in [-180, 180] and latitude in [-90, 90].") /\
  (false = true <->
   "Invalid coordinates for 'Point'. Longitude must be in [-180, 180] and latitude in [-90, 90]."
   = "Location format is valid.").
Proof.
  split; [reflexivity|].
  exact (proj1 (location_verdict_message shown_float shown_allowed_types
                  (geometry "Point" (JList [JInt 200; JInt 10])) false _
                  eq_refl)).
Defined.

Lemma location_not_a_mapping_witness :
  (In (JStr "type") [JStr "type"; JStr "coordinates"] /\
   In (JStr "coordinates") [JStr "type"; JStr "coordinates"]) /\
  validate_location_format shown_float shown_allowed_types
    (JList [JStr "type"; JStr "coordinates"])
  = Raise TypeError.
Proof.
  assert (H : In (JStr "type") [JStr "type"; JStr "coordinates"] /\
              In (JStr "coordinates") [JStr "type"; JStr "coordinates"])
    by (split; cbn [In]; auto).
  split; [exact H|].
  exact (proj1 (proj1 (proj2 (proj2 (proj2 (proj2
           (location_not_a_mapping shown_float shown_allowed_types)))))
           [JStr "type"; JStr "coordinates"]) H).
Defined.

Lemma document_not_a_mapping_witness :
  ~ In (JStr "location") [JInt 1; JStr "x"] /\
  validate_json_data shown_float shown_allowed_types (JList [JInt 1; JStr "x"])
  = Ret (false, "The 'location' attribute is missing.").
Proof.
  assert (H : ~ In (JStr "location") [JInt 1; JStr "x"])
    by (cbn [In]; intros [H | [H | H]]; [discriminate | discriminate | exact H]).
  split; [exact H|].
  exact (proj2 (proj1 (proj2 (proj2 (proj2 (proj2
           (document_not_a_mapping shown_float shown_allowed_types)))))
           [JInt 1; JStr "x"]) H).
Defined.

Lemma point_evaluation_order_witness :
  is_number (JInt 200) /\ ~ in_interval (-180) 180 (JInt 200) /\
  validate_location_format shown_float shown_allowed_types
    (geometry "Point" (JList [JInt 200; JStr "north"]))
  = Ret (false, "Invalid coordinates for 'Point'. Longitude must be in [-180, 180] and latitude in [-90, 90].").
Proof.
  assert (H1 : is_number (JInt 200)) by discriminate.
  assert (H2 : ~ in_interval (-180) 180 (JInt 200)).
  { intros (q & [= <-] & _ & H). exact (H eq_refl). }
  split; [exact H1|]. split; [exact H2|].
  exact (proj1 (point_evaluation_order shown_float shown_allowed_types
                  (JInt 200) (JStr "north")) H1 H2).
Defined.

Lemma well_shaped_location_returns_witness :
  well_shaped_location valid_point /\
  exists v, validate_location_format shown_float shown_allowed_types
              valid_point = Ret v.
Proof.
  split; [exact valid_point_well_shaped|].
  exact (well_shaped_location_returns shown_float shown_allowed_types
           valid_point valid_point_well_shaped).
Defined.

Lemma well_shaped_document_returns_witness :
  (forall location, lookup "location" valid_document = Some location ->
                    well_shaped_location location) /\
  (forall context, lookup "@context" valid_document = Some context ->
                   well_shaped_context context) /\
  exists v, validate_json_data shown_float shown_allowed_types
              (JDict valid_document) = Ret v.
Proof.
  split; [exact valid_document_location_shape|].
  split; [exact valid_document_context_shape|].
  exact (well_shaped_document_returns shown_float shown_allowed_types
           valid_document valid_document_location_shape
           valid_document_context_shape).
Defined.

Lemma routes_agree_witness :
  get_file "file" [("file", named_file (JDict valid_document))]
  = Some (named_file (JDict valid_document)) /\
  filename (named_file (JDict valid_document)) <> "" /\
  content (named_file (JDict valid_document)) = Loaded (JDict valid_document) /\
  JDict valid_document <> JNull /\
  upload_file shown_float shown_allowed_types
    [("file", named_file (JDict valid_document))]
  = validate_api shown_float shown_allowed_types (Loaded (JDict valid_document)).
Proof.
  assert (H1 : filename (named_file (JDict valid_document)) <> "")
    by discriminate.
  assert (H2 : JDict valid_document <> JNull) by discriminate.
  split; [reflexivity|]. split; [exact H1|]. split; [reflexivity|].
  split; [exact H2|].
  exact (proj1 (routes_agree shown_float shown_allowed_types
                  [("file", named_file (JDict valid_document))]
                  (named_file (JDict valid_document)) (JDict valid_document)
                  eq_refl H1 eq_refl) H2).
Defined.

Lemma route_responses_witness :
  upload_file shown_float shown_allowed_types
    [("file", named_file (JDict []))]
  = Responds (JsonError "Validation failed: The 'location' attribute is missing.") 400 /\
  ((400 = 200 /\
    JsonError "Validation failed: The 'location' attribute is missing."
    = JsonMessage "Data model is valid.") \/
   (400 = 400 /\
    (In (JsonError "Validation failed: The 'location' attribute is missing.")
        [JsonError "No file provided"; JsonError "No file selected";
         JsonError "Invalid JSON file."] \/
     exists file json m,
       get_file "file" [("file", named_file (JDict []))] = Some file /\
       content file = Loaded json /\
       validate_json_data shown_float shown_allowed_types json
       = Ret (false, m) /\
       JsonError "Validation failed: The 'location' attribute is missing."
       = JsonError ("Validation failed: " ++ m)))).
Proof.
  split; [reflexivity|].
  exact (proj1 (route_responses shown_float shown_allowed_types)
           [("file", named_file (JDict []))] _ 400 eq_refl).
Defined.

Lemma routes_answer_well_shaped_witness :
  (forall location, lookup "location" valid_document = Some location ->
                    well_shaped_location location) /\
  (forall context, lookup "@context" valid_document = Some context ->
                   well_shaped_context context) /\
  get_file "file" [("file", named_file (JDict valid_document))]
  = Some (named_file (JDict valid_document)) /\
  filename (named_file (JDict valid_document)) <> "" /\
  content (named_file (JDict valid_document)) = Loaded (JDict valid_document) /\
  exists body status,
    (status = 200 \/ status = 400) /\
    upload_file shown_float shown_allowed_types
      [("file", named_file (JDict valid_document))]
    = Responds body status /\
    validate_api shown_float shown_allowed_types
      (Loaded (JDict valid_document))
    = Responds body status.
Proof.
  assert (H : filename (named_file (JDict valid_document)) <> "")
    by discriminate.
  split; [exact valid_document_location_shape|].
  split; [exact valid_document_context_shape|].
  split; [reflexivity|]. split; [exact H|]. split; [reflexivity|].
  exact (routes_answer_well_shaped shown_float shown_allowed_types
           valid_document [("file", named_file (JDict valid_document))]
           (named_file (JDict valid_document))
           valid_document_location_shape valid_document_context_shape
           eq_refl H eq_refl).
Defined.

Lemma document_verdict_message_witness :
  validate_json_data shown_float shown_allowed_types (JDict [])
  = Ret (false, "The 'location' attribute is missing.") /\
  (false = true <->
   "The 'location' attribute is missing." = "Data model is valid.").
Proof.
  split; [reflexivity|].
  exact (proj1 (document_verdict_message shown_float shown_allowed_types
                  (JDict []) false _ eq_refl)).
Defined.
